(** * The PodSet controller: a shallow embedding of [controllers/podset_controller.go]

  The controller has one entry point, [Reconcile], which reads a PodSet and
  the pods carrying its labels through a [client.Client], recomputes the
  PodSet's status, and then deletes or creates a pod.  The embedding keeps
  the shape of the Go code: the Kubernetes objects are records grouped in
  modules named after their Go packages, [int32] values are integers with
  the conversion written out, the client is an interface (a type class), and
  every call made through the client is recorded in a trace. *)

From Stdlib Require Import ZArith List String Bool Lia.
From stdpp Require Import base gmap strings.
Import ListNotations.

Local Open Scope string_scope.
Local Open Scope Z_scope.
Local Open Scope list_scope.

(** ** Go integers *)

Definition max_int32 : Z := 2147483647.

(** The conversion [int32(x)]: keep the low 32 bits, read as two's complement. *)
Definition to_int32 (z : Z) : Z := (z + 2 ^ 31) mod 2 ^ 32 - 2 ^ 31.

(** [int32(len(s))]. *)
Definition len32 {A} (s : list A) : Z := to_int32 (Z.of_nat (length s)).

(** ** Kubernetes objects, as far as the controller touches them *)

Module metav1.

Record OwnerReference := {
  APIVersion : string;
  Kind : string;
  OwnerName : string;
  OwnerUID : string;
  Controller : bool;
  BlockOwnerDeletion : bool
}.

(** [DeletionTimestamp] is a [*metav1.Time]: [None] is the nil pointer. *)
Record ObjectMeta := {
  Name : string;
  GenerateName : string;
  Namespace : string;
  UID : string;
  Labels : gmap string string;
  DeletionTimestamp : option Z;
  OwnerReferences : list OwnerReference
}.

Definition zero : ObjectMeta :=
  {| Name := ""; GenerateName := ""; Namespace := ""; UID := "";
     Labels := ∅; DeletionTimestamp := None; OwnerReferences := [] |}.

End metav1.

Module corev1.

(** [type PodPhase string]. *)
Definition PodPhase := string.
Definition PodPending : PodPhase := "Pending".
Definition PodRunning : PodPhase := "Running".
Definition PodSucceeded : PodPhase := "Succeeded".
Definition PodFailed : PodPhase := "Failed".
Definition PodUnknown : PodPhase := "Unknown".

Record Container := {
  ContainerName : string;
  Image : string;
  Command : list string
}.

Record PodSpec := { Containers : list Container }.

Record PodStatus := { Phase : PodPhase }.

Record Pod := {
  ObjectMeta : metav1.ObjectMeta;
  Spec : PodSpec;
  Status : PodStatus
}.

(** The zero value [corev1.Pod{}]. *)
Definition zero : Pod :=
  {| ObjectMeta := metav1.zero;
     Spec := {| Containers := [] |};
     Status := {| Phase := "" |} |}.

Record PodList := { Items : list Pod }.

End corev1.

Module podsetv1alpha1.

(** [Replicas int32]. *)
Record PodSetSpec := { Replicas : Z }.

(** [PodNames []string]: [None] is the nil slice, [Some []] the empty
    non-nil slice; [reflect.DeepEqual] tells them apart. *)
Record PodSetStatus := {
  PodNames : option (list string);
  AvailableReplicas : Z
}.

Record PodSet := {
  ObjectMeta : metav1.ObjectMeta;
  Spec : PodSetSpec;
  Status : PodSetStatus
}.

Definition withStatus (ps : PodSet) (st : PodSetStatus) : PodSet :=
  {| ObjectMeta := ObjectMeta ps; Spec := Spec ps; Status := st |}.

End podsetv1alpha1.

(** ** Errors ([k8s.io/apimachinery/pkg/api/errors]) *)

Module errors.

Inductive StatusReason :=
| StatusReasonUnknown
| StatusReasonNotFound
| StatusReasonAlreadyExists
| StatusReasonConflict
| StatusReasonInternalError.

Record error := { Reason : StatusReason; Message : string }.

Definition IsNotFound (err : error) : bool :=
  match Reason err with
  | StatusReasonNotFound => true
  | _ => false
  end.

End errors.

Abbreviation error := errors.error.

Inductive result (A : Type) : Type :=
| Ok (a : A)
| Err (err : error).
Arguments Ok {A} a.
Arguments Err {A} err.

(** ** Label selectors ([k8s.io/apimachinery/pkg/labels]) *)

Module labels.

(** A selector built by [SelectorFromSet] is one equality requirement per
    entry of the set. *)
Record Selector := { requirements : list (string * string) }.

Definition SelectorFromSet (ls : gmap string string) : Selector :=
  {| requirements := map_to_list ls |}.

Definition Matches (sel : Selector) (ls : gmap string string) : bool :=
  forallb (fun kv => bool_decide (ls !! fst kv = Some (snd kv)))
          (requirements sel).

End labels.

(** ** The client interface ([sigs.k8s.io/controller-runtime/pkg/client]) *)

Module types.
Record NamespacedName := { Namespace : string; Name : string }.
End types.

Module client.

Record ListOptions := {
  Namespace : string;
  LabelSelector : labels.Selector
}.

(** The methods of [client.Client] the controller calls.  A value of type
    [C] is the receiver; a method returns what the store answers. *)
Class Client (C : Type) := {
  Get : C -> types.NamespacedName -> result podsetv1alpha1.PodSet;
  List : C -> ListOptions -> result corev1.PodList;
  StatusUpdate : C -> podsetv1alpha1.PodSet -> option error;
  Delete : C -> corev1.Pod -> option error;
  Create : C -> corev1.Pod -> option error
}.

End client.

Module ctrl.
Record Request := { NamespacedName : types.NamespacedName }.
Record Result := { Requeue : bool; RequeueAfter : Z }.
(** [ctrl.Result{}]. *)
Definition Result0 : Result := {| Requeue := false; RequeueAfter := 0 |}.
Definition ResultRequeue : Result := {| Requeue := true; RequeueAfter := 0 |}.
End ctrl.

(** ** Calls through the client, and the trace of a pass *)

Inductive Call :=
| CallGet (key : types.NamespacedName)
| CallList (opts : client.ListOptions)
| CallStatusUpdate (obj : podsetv1alpha1.PodSet)
| CallDelete (obj : corev1.Pod)
| CallCreate (obj : corev1.Pod).

(** A call together with the error it returned ([None] is Go's [nil]). *)
Record Event := { call : Call; failure : option error }.

Definition Trace := list Event.

(** A pass computes a value and leaves the trace of the calls it made. *)
Definition M (A : Type) : Type := (A * Trace)%type.

Definition ret {A} (a : A) : M A := (a, []).

Definition bind {A B} (m : M A) (k : A -> M B) : M B :=
  let (b, t) := k (fst m) in (b, snd m ++ t).

Notation "x <- m ;; k" := (bind m (fun x => k))
  (at level 100, m at next level, right associativity).

Definition result_err {A} (r : result A) : option error :=
  match r with
  | Ok _ => None
  | Err err => Some err
  end.

(** What a Go function that can panic hands back. *)
Inductive Outcome :=
| Returned (res : ctrl.Result) (err : option error)
| Panicked.

(** A [for ... range] body either reaches its end or executes [return]. *)
Inductive flow (A : Type) : Type :=
| Continue
| Return (a : A).
Arguments Continue {A}.
Arguments Return {A} a.

Fixpoint for_range {X A} (xs : list X) (body : X -> M (flow A)) : M (flow A) :=
  match xs with
  | [] => ret Continue
  | x :: xs' =>
      f <- body x ;;
      match f with
      | Continue => for_range xs' body
      | Return a => ret (Return a)
      end
  end.

(** [reflect.DeepEqual] on two [PodSetStatus] values: field by field; a nil
    slice equals only a nil slice. *)
Definition DeepEqual (a b : podsetv1alpha1.PodSetStatus) : bool :=
  match podsetv1alpha1.PodNames a, podsetv1alpha1.PodNames b with
  | None, None => true
  | Some x, Some y => bool_decide (x = y)
  | _, _ => false
  end
  && (podsetv1alpha1.AvailableReplicas a =? podsetv1alpha1.AvailableReplicas b).

(** The slice expression [s[:hi]] on a slice of length [length s] and capacity
    [cap]: the bound is checked against the capacity, and the elements past
    the length are zero values.  [None] is the run-time panic. *)
Definition slice_to {A} (zero : A) (cap : nat) (s : list A) (hi : Z)
  : option (list A) :=
  if (0 <=? hi) && (hi <=? Z.of_nat cap)
  then Some (firstn (Z.to_nat hi) (s ++ repeat zero (cap - length s)))
  else None.

(** ** The controller ([package controllers]) *)

Import podsetv1alpha1.

(** [type PodSetReconciler struct { client.Client; Scheme *runtime.Scheme }]. *)
Record PodSetReconciler (C S : Type) := {
  Client : C;
  Scheme : S
}.
Arguments Client {C S} _.
Arguments Scheme {C S} _.

(** [newPodForCR]: the busybox pod for a PodSet.  Fields the Go literal does
    not set keep their zero values. *)
Definition newPodForCR (cr : PodSet) : corev1.Pod :=
  let podSetLabels : gmap string string :=
    <["app" := metav1.Name (ObjectMeta cr)]> (<["version" := "v0.1"]> ∅) in
  {| corev1.ObjectMeta :=
       {| metav1.Name := "";
          metav1.GenerateName := String.append (metav1.Name (ObjectMeta cr)) "-pod";
          metav1.Namespace := metav1.Namespace (ObjectMeta cr);
          metav1.UID := "";
          metav1.Labels := podSetLabels;
          metav1.DeletionTimestamp := None;
          metav1.OwnerReferences := [] |};
     corev1.Spec :=
       {| corev1.Containers :=
            [ {| corev1.ContainerName := "busybox";
                 corev1.Image := "busybox";
                 corev1.Command := ["sleep"; "3600"] |} ] |};
     corev1.Status := {| corev1.Phase := "" |} |}.

(** The list options [Reconcile] builds for a PodSet (lines 73-79). *)
Definition listOptsFor (podSet : PodSet) : client.ListOptions :=
  let podSetLabels : gmap string string :=
    <["app" := metav1.Name (ObjectMeta podSet)]> (<["version" := "v0.1"]> ∅) in
  let labelSelector := labels.SelectorFromSet podSetLabels in
  {| client.Namespace := metav1.Namespace (ObjectMeta podSet);
     client.LabelSelector := labelSelector |}.

(** The loop that collects the available pods (lines 84-93). *)
Definition availablePods (items : list corev1.Pod) : list corev1.Pod :=
  fold_left
    (fun available pod =>
       match metav1.DeletionTimestamp (corev1.ObjectMeta pod) with
       | Some _ => available
       | None =>
           if String.eqb (corev1.Phase (corev1.Status pod)) corev1.PodRunning
              || String.eqb (corev1.Phase (corev1.Status pod)) corev1.PodPending
           then available ++ [pod]
           else available
       end)
    items [].

(** The loop that collects their names (lines 95-98). *)
Definition podNamesOf (available : list corev1.Pod) : list string :=
  fold_left
    (fun availableNames pod =>
       availableNames ++ [metav1.Name (corev1.ObjectMeta pod)])
    available [].

(** The status computed from a listing: lines 84-104 as a function of
    [podList.Items]. *)
Definition computeStatus (items : list corev1.Pod) : PodSetStatus :=
  let available := availablePods items in
  let numAvailable := len32 available in
  let availableNames := podNamesOf available in
  {| PodNames := Some availableNames;
     AvailableReplicas := numAvailable |}.

Section Reconciler.

Context {C : Type} `{client.Client C} {S : Type}.

(** [controllerutil.SetControllerReference(owner, pod, scheme)]: the pod with
    the owner reference set, or an error. *)
Variable SetControllerReference :
  PodSet -> corev1.Pod -> S -> result corev1.Pod.

(** Capacity [append] leaves beyond the length when it has grown a slice to
    [n] elements; it is a choice of the Go runtime. *)
Variable spare : nat -> nat.

(** [cap(available)] once the loop has appended [n] pods to the nil slice. *)
Definition append_cap (n : nat) : nat :=
  match n with
  | O => O
  | _ => (n + spare n)%nat
  end.

Implicit Type r : PodSetReconciler C S.

Definition r_Get r (key : types.NamespacedName) : M (result PodSet) :=
  let a := client.Get (Client r) key in
  (a, [ {| call := CallGet key; failure := result_err a |} ]).

Definition r_List r (opts : client.ListOptions) : M (result corev1.PodList) :=
  let a := client.List (Client r) opts in
  (a, [ {| call := CallList opts; failure := result_err a |} ]).

Definition r_StatusUpdate r (obj : PodSet) : M (option error) :=
  let a := client.StatusUpdate (Client r) obj in
  (a, [ {| call := CallStatusUpdate obj; failure := a |} ]).

Definition r_Delete r (obj : corev1.Pod) : M (option error) :=
  let a := client.Delete (Client r) obj in
  (a, [ {| call := CallDelete obj; failure := a |} ]).

Definition r_Create r (obj : corev1.Pod) : M (option error) :=
  let a := client.Create (Client r) obj in
  (a, [ {| call := CallCreate obj; failure := a |} ]).

(** Lines 114-144: scale down, scale up, or nothing. *)
Definition scale r (podSet : PodSet) (available : list corev1.Pod)
    (numAvailable : Z) : M Outcome :=
  down <-
    (if numAvailable >? Replicas (Spec podSet) then
       let diff := to_int32 (numAvailable - Replicas (Spec podSet)) in
       match slice_to corev1.zero (append_cap (length available)) available diff with
       | None => ret (Return Panicked)
       | Some dpods =>
           for_range dpods (fun dpod =>
             err <- r_Delete r dpod ;;
             match err with
             | Some err => ret (Return (Returned ctrl.Result0 (Some err)))
             | None => ret (Return (Returned ctrl.ResultRequeue None))
             end)
       end
     else ret Continue) ;;
  match down with
  | Return out => ret out
  | Continue =>
      if numAvailable <? Replicas (Spec podSet) then
        let pod := newPodForCR podSet in
        match SetControllerReference podSet pod (Scheme r) with
        | Err err => ret (Returned ctrl.Result0 (Some err))
        | Ok pod =>
            err <- r_Create r pod ;;
            match err with
            | Some err => ret (Returned ctrl.Result0 (Some err))
            | None => ret (Returned ctrl.ResultRequeue None)
            end
        end
      else ret (Returned ctrl.Result0 None)
  end.

(** [func (r *PodSetReconciler) Reconcile(ctx, req) (ctrl.Result, error)].
    The context and the log lines are left out.  A successful status update
    hands the object back as the store holds it, which is the object sent:
    the store refuses the update of an object whose spec has changed since
    it was read. *)
Definition Reconcile r (req : ctrl.Request) : M Outcome :=
  got <- r_Get r (ctrl.NamespacedName req) ;;
  match got with
  | Err err =>
      if errors.IsNotFound err
      then ret (Returned ctrl.Result0 None)
      else ret (Returned ctrl.Result0 (Some err))
  | Ok instance =>
      let podSet := instance in
      listed <- r_List r (listOptsFor podSet) ;;
      match listed with
      | Err err => ret (Returned ctrl.Result0 (Some err))
      | Ok podList =>
          let available := availablePods (corev1.Items podList) in
          let numAvailable := len32 available in
          let availableNames := podNamesOf available in
          let status :=
            {| PodNames := Some availableNames;
               AvailableReplicas := numAvailable |} in
          if negb (DeepEqual (Status podSet) status) then
            let podSet := withStatus podSet status in
            err <- r_StatusUpdate r podSet ;;
            match err with
            | Some err => ret (Returned ctrl.Result0 (Some err))
            | None => scale r podSet available numAvailable
            end
          else scale r podSet available numAvailable
      end
  end.

End Reconciler.

(** ** An in-memory cluster

    A client in the manner of controller-runtime's fake client: the objects
    are held in lists, reads are answered from them, and each kind of call can
    be told to fail.  It is used to run the controller on concrete inputs. *)

Module fake.

Record Cluster := {
  podsets : list PodSet;
  pods : list corev1.Pod;
  getErr : option error;
  listErr : option error;
  updateErr : option error;
  deleteErr : option error;
  createErr : option error
}.

Definition notFound : error :=
  {| errors.Reason := errors.StatusReasonNotFound; errors.Message := "not found" |}.

Definition conflict : error :=
  {| errors.Reason := errors.StatusReasonConflict;
     errors.Message := "the object has been modified" |}.

Definition hasKey (key : types.NamespacedName) (ps : PodSet) : bool :=
  String.eqb (metav1.Namespace (ObjectMeta ps)) (types.Namespace key)
  && String.eqb (metav1.Name (ObjectMeta ps)) (types.Name key).

Definition selects (opts : client.ListOptions) (pod : corev1.Pod) : bool :=
  (String.eqb (client.Namespace opts) ""
   || String.eqb (metav1.Namespace (corev1.ObjectMeta pod)) (client.Namespace opts))
  && labels.Matches (client.LabelSelector opts) (metav1.Labels (corev1.ObjectMeta pod)).

#[global] Instance cluster_client : client.Client Cluster := {|
  client.Get cl key :=
    match getErr cl with
    | Some err => Err err
    | None =>
        match List.find (hasKey key) (podsets cl) with
        | Some ps => Ok ps
        | None => Err notFound
        end
    end;
  client.List cl opts :=
    match listErr cl with
    | Some err => Err err
    | None => Ok {| corev1.Items := List.filter (selects opts) (pods cl) |}
    end;
  client.StatusUpdate cl _ := updateErr cl;
  client.Delete cl _ := deleteErr cl;
  client.Create cl _ := createErr cl
|}.

(** The pod with its controller reference pointing at the owner. *)
Definition withOwner (owner : PodSet) (pod : corev1.Pod) : corev1.Pod :=
  {| corev1.ObjectMeta :=
       {| metav1.Name := metav1.Name (corev1.ObjectMeta pod);
          metav1.GenerateName := metav1.GenerateName (corev1.ObjectMeta pod);
          metav1.Namespace := metav1.Namespace (corev1.ObjectMeta pod);
          metav1.UID := metav1.UID (corev1.ObjectMeta pod);
          metav1.Labels := metav1.Labels (corev1.ObjectMeta pod);
          metav1.DeletionTimestamp :=
            metav1.DeletionTimestamp (corev1.ObjectMeta pod);
          metav1.OwnerReferences :=
            [ {| metav1.APIVersion := "podset.example.com/v1alpha1";
                 metav1.Kind := "PodSet";
                 metav1.OwnerName := metav1.Name (ObjectMeta owner);
                 metav1.OwnerUID := metav1.UID (ObjectMeta owner);
                 metav1.Controller := true;
                 metav1.BlockOwnerDeletion := true |} ] |};
     corev1.Spec := corev1.Spec pod;
     corev1.Status := corev1.Status pod |}.

(** A scheme is only asked whether it knows the PodSet kind. *)
Definition setControllerReference (owner : PodSet) (pod : corev1.Pod)
    (registered : bool) : result corev1.Pod :=
  if registered then Ok (withOwner owner pod)
  else
    Err {| errors.Reason := errors.StatusReasonInternalError;
           errors.Message := "no kind is registered for the type PodSet" |}.

(** No spare capacity: [cap] equals [len]. *)
Definition tight (n : nat) : nat := O.

Definition run (cl : Cluster) (registered : bool) (req : ctrl.Request) : M Outcome :=
  Reconcile setControllerReference tight
    {| Client := cl; Scheme := registered |} req.

(** Fixtures. *)
Definition podset (name : string) (replicas : Z) (st : PodSetStatus) : PodSet :=
  {| ObjectMeta :=
       {| metav1.Name := name; metav1.GenerateName := "";
          metav1.Namespace := "default"; metav1.UID := "uid-1";
          metav1.Labels := ∅; metav1.DeletionTimestamp := None;
          metav1.OwnerReferences := [] |};
     Spec := {| Replicas := replicas |};
     Status := st |}.

Definition pod (owner name : string) (phase : corev1.PodPhase)
    (deleted : option Z) : corev1.Pod :=
  {| corev1.ObjectMeta :=
       {| metav1.Name := name; metav1.GenerateName := "";
          metav1.Namespace := "default"; metav1.UID := "";
          metav1.Labels := <["app" := owner]> (<["version" := "v0.1"]> ∅);
          metav1.DeletionTimestamp := deleted;
          metav1.OwnerReferences := [] |};
     corev1.Spec := {| corev1.Containers := [] |};
     corev1.Status := {| corev1.Phase := phase |} |}.

Definition request (name : string) : ctrl.Request :=
  {| ctrl.NamespacedName := {| types.Namespace := "default"; types.Name := name |} |}.

Definition noStatus : PodSetStatus :=
  {| PodNames := None; AvailableReplicas := 0 |}.

Definition healthy (ps : list PodSet) (ps' : list corev1.Pod) : Cluster :=
  {| podsets := ps; pods := ps'; getErr := None; listErr := None;
     updateErr := None; deleteErr := None; createErr := None |}.

Definition failing_update (ps : list PodSet) (ps' : list corev1.Pod) : Cluster :=
  {| podsets := ps; pods := ps'; getErr := None; listErr := None;
     updateErr := Some conflict; deleteErr := None; createErr := None |}.

(** Five available pods of the PodSet "demo", a pod of another PodSet, and a
    pod of "demo" that is being deleted. *)
Definition five : list corev1.Pod :=
  [ pod "demo" "demo-pod-a" corev1.PodRunning None;
    pod "demo" "demo-pod-b" corev1.PodPending None;
    pod "demo" "demo-pod-c" corev1.PodRunning None;
    pod "demo" "demo-pod-d" corev1.PodRunning None;
    pod "demo" "demo-pod-e" corev1.PodRunning None ].

Definition crowd : list corev1.Pod :=
  five ++ [ pod "other" "other-pod-a" corev1.PodRunning None;
            pod "demo" "demo-pod-f" corev1.PodRunning (Some 1660000000) ].

(** One of each: running, running but being deleted, failed, pending. *)
Definition mixed : list corev1.Pod :=
  [ pod "demo" "demo-pod-a" corev1.PodRunning None;
    pod "demo" "demo-pod-b" corev1.PodRunning (Some 1660000000);
    pod "demo" "demo-pod-c" corev1.PodFailed None;
    pod "demo" "demo-pod-d" corev1.PodPending None ].

Definition statusOf (names : list string) : PodSetStatus :=
  {| PodNames := Some names; AvailableReplicas := Z.of_nat (length names) |}.

(** Scenarios. *)
Definition reconciler (cl : Cluster) : PodSetReconciler Cluster bool :=
  {| Client := cl; Scheme := true |}.

Definition demo (replicas : Z) (st : PodSetStatus) : PodSet :=
  podset "demo" replicas st.

Definition demo_absent : Cluster := healthy [] five.
Definition demo_down : Cluster := healthy [demo 2 noStatus] crowd.
Definition demo_up : Cluster := healthy [demo 3 noStatus] mixed.
Definition demo_steady : Cluster := healthy [demo 2 noStatus] mixed.
Definition demo_settled : Cluster :=
  healthy [demo 2 (statusOf ["demo-pod-a"; "demo-pod-d"])] mixed.
Definition demo_conflict : Cluster := failing_update [demo 1 noStatus] [].
Definition demo_conflict_up : Cluster := failing_update [demo 3 noStatus] mixed.

End fake.

(** ** Vocabulary of the properties *)

(** The availability test in the words of the specification: no deletion
    marker, and phase Pending or Running. *)
Definition isAvailable (pod : corev1.Pod) : bool :=
  match metav1.DeletionTimestamp (corev1.ObjectMeta pod) with
  | Some _ => false
  | None =>
      String.eqb (corev1.Phase (corev1.Status pod)) corev1.PodPending
      || String.eqb (corev1.Phase (corev1.Status pod)) corev1.PodRunning
  end.

Definition podName (pod : corev1.Pod) : string :=
  metav1.Name (corev1.ObjectMeta pod).

(** The objects of the calls of each kind in a trace. *)
Definition deletes (t : Trace) : list corev1.Pod :=
  flat_map (fun ev => match call ev with CallDelete obj => [obj] | _ => [] end) t.

Definition creates (t : Trace) : list corev1.Pod :=
  flat_map (fun ev => match call ev with CallCreate obj => [obj] | _ => [] end) t.

Definition updates (t : Trace) : list PodSet :=
  flat_map (fun ev => match call ev with CallStatusUpdate obj => [obj] | _ => [] end) t.

Definition lists (t : Trace) : list client.ListOptions :=
  flat_map (fun ev => match call ev with CallList opts => [opts] | _ => [] end) t.

(** The PodSet as the store holds it after the calls of a trace: the object
    of the last status update that succeeded, or the PodSet as it was. *)
Fixpoint persisted (ps : PodSet) (t : Trace) : PodSet :=
  match t with
  | [] => ps
  | {| call := CallStatusUpdate obj; failure := None |} :: t' => persisted obj t'
  | _ :: t' => persisted ps t'
  end.

(** ** The runs of a pass

    The possible runs of [scale] and of [Reconcile], one constructor per path
    through the Go code, each with the outcome and the trace of that path. *)

Section Runs.

Context {C : Type} `{client.Client C} {S : Type}.
Variable SetControllerReference :
  PodSet -> corev1.Pod -> S -> result corev1.Pod.
Variable spare : nat -> nat.
Variable r : PodSetReconciler C S.

(** What a pass returns after a call that may have failed. *)
Definition after_call (failed : option error) : Outcome :=
  match failed with
  | Some err => Returned ctrl.Result0 (Some err)
  | None => Returned ctrl.ResultRequeue None
  end.

Inductive scale_run (podSet : PodSet) (available : list corev1.Pod)
    (numAvailable : Z) : M Outcome -> Prop :=
| scale_panics :
    numAvailable > Replicas (Spec podSet) ->
    slice_to corev1.zero (append_cap spare (length available)) available
      (to_int32 (numAvailable - Replicas (Spec podSet))) = None ->
    scale_run podSet available numAvailable (Panicked, [])
| scale_empty_slice :
    numAvailable > Replicas (Spec podSet) ->
    slice_to corev1.zero (append_cap spare (length available)) available
      (to_int32 (numAvailable - Replicas (Spec podSet))) = Some [] ->
    scale_run podSet available numAvailable (Returned ctrl.Result0 None, [])
| scale_deletes dpod dpods :
    numAvailable > Replicas (Spec podSet) ->
    slice_to corev1.zero (append_cap spare (length available)) available
      (to_int32 (numAvailable - Replicas (Spec podSet))) = Some (dpod :: dpods) ->
    scale_run podSet available numAvailable
      (after_call (client.Delete (Client r) dpod),
       [ {| call := CallDelete dpod;
            failure := client.Delete (Client r) dpod |} ])
| scale_owner_fails err :
    numAvailable < Replicas (Spec podSet) ->
    SetControllerReference podSet (newPodForCR podSet) (Scheme r) = Err err ->
    scale_run podSet available numAvailable
      (Returned ctrl.Result0 (Some err), [])
| scale_creates pod :
    numAvailable < Replicas (Spec podSet) ->
    SetControllerReference podSet (newPodForCR podSet) (Scheme r) = Ok pod ->
    scale_run podSet available numAvailable
      (after_call (client.Create (Client r) pod),
       [ {| call := CallCreate pod;
            failure := client.Create (Client r) pod |} ])
| scale_nothing :
    numAvailable = Replicas (Spec podSet) ->
    scale_run podSet available numAvailable (Returned ctrl.Result0 None, []).

Inductive pass_run (req : ctrl.Request) : M Outcome -> Prop :=
| pass_absent err :
    client.Get (Client r) (ctrl.NamespacedName req) = Err err ->
    errors.IsNotFound err = true ->
    pass_run req
      (Returned ctrl.Result0 None,
       [ {| call := CallGet (ctrl.NamespacedName req); failure := Some err |} ])
| pass_get_fails err :
    client.Get (Client r) (ctrl.NamespacedName req) = Err err ->
    errors.IsNotFound err = false ->
    pass_run req
      (Returned ctrl.Result0 (Some err),
       [ {| call := CallGet (ctrl.NamespacedName req); failure := Some err |} ])
| pass_list_fails podSet err :
    client.Get (Client r) (ctrl.NamespacedName req) = Ok podSet ->
    client.List (Client r) (listOptsFor podSet) = Err err ->
    pass_run req
      (Returned ctrl.Result0 (Some err),
       [ {| call := CallGet (ctrl.NamespacedName req); failure := None |};
         {| call := CallList (listOptsFor podSet); failure := Some err |} ])
| pass_update_fails podSet podList err :
    client.Get (Client r) (ctrl.NamespacedName req) = Ok podSet ->
    client.List (Client r) (listOptsFor podSet) = Ok podList ->
    DeepEqual (Status podSet) (computeStatus (corev1.Items podList)) = false ->
    client.StatusUpdate (Client r)
      (withStatus podSet (computeStatus (corev1.Items podList))) = Some err ->
    pass_run req
      (Returned ctrl.Result0 (Some err),
       [ {| call := CallGet (ctrl.NamespacedName req); failure := None |};
         {| call := CallList (listOptsFor podSet); failure := None |};
         {| call := CallStatusUpdate
                      (withStatus podSet (computeStatus (corev1.Items podList)));
            failure := Some err |} ])
| pass_updates podSet podList out t :
    client.Get (Client r) (ctrl.NamespacedName req) = Ok podSet ->
    client.List (Client r) (listOptsFor podSet) = Ok podList ->
    DeepEqual (Status podSet) (computeStatus (corev1.Items podList)) = false ->
    client.StatusUpdate (Client r)
      (withStatus podSet (computeStatus (corev1.Items podList))) = None ->
    scale_run (withStatus podSet (computeStatus (corev1.Items podList)))
      (availablePods (corev1.Items podList))
      (len32 (availablePods (corev1.Items podList))) (out, t) ->
    pass_run req
      (out,
       {| call := CallGet (ctrl.NamespacedName req); failure := None |}
       :: {| call := CallList (listOptsFor podSet); failure := None |}
       :: {| call := CallStatusUpdate
                       (withStatus podSet (computeStatus (corev1.Items podList)));
             failure := None |}
       :: t)
| pass_unchanged podSet podList out t :
    client.Get (Client r) (ctrl.NamespacedName req) = Ok podSet ->
    client.List (Client r) (listOptsFor podSet) = Ok podList ->
    DeepEqual (Status podSet) (computeStatus (corev1.Items podList)) = true ->
    scale_run podSet (availablePods (corev1.Items podList))
      (len32 (availablePods (corev1.Items podList))) (out, t) ->
    pass_run req
      (out,
       {| call := CallGet (ctrl.NamespacedName req); failure := None |}
       :: {| call := CallList (listOptsFor podSet); failure := None |}
       :: t).

End Runs.

(** ** Two passes over the same store *)

Section Stores.

Context {C1 : Type} `{client.Client C1} {C2 : Type} `{client.Client C2}.

(** Two clients that answer every call alike. *)
Definition same_answers (c1 : C1) (c2 : C2) : Prop :=
  (forall key, client.Get c1 key = client.Get c2 key)
  /\ (forall opts, client.List c1 opts = client.List c2 opts)
  /\ (forall obj, client.StatusUpdate c1 obj = client.StatusUpdate c2 obj)
  /\ (forall obj, client.Delete c1 obj = client.Delete c2 obj)
  /\ (forall obj, client.Create c1 obj = client.Create c2 obj).

(** The second client shows the store as a pass with trace [t] through the
    first client left it, nothing else having changed: the PodSet of [key]
    is the persisted one (or is still absent), and the listings are the
    same. *)
Definition left_by (c1 : C1) (key : types.NamespacedName) (t : Trace)
    (c2 : C2) : Prop :=
  client.Get c2 key
    = match client.Get c1 key with
      | Ok podSet => Ok (persisted podSet t)
      | Err err => Err err
      end
  /\ (forall opts, client.List c2 opts = client.List c1 opts).

End Stores.

(** ** The controller as the tutorial lists it

    [tutorial.md] (and the tutorial draft beside it) list the controller file
    in full.  Their [Reconcile] is the one above except in the scale-down
    block, whose [return ctrl.Result{Requeue: true}, nil] comes after the
    loop instead of inside it. *)

Module tutorial.

Section Reconciler.

Context {C : Type} `{client.Client C} {S : Type}.
Variable SetControllerReference :
  PodSet -> corev1.Pod -> S -> result corev1.Pod.
Variable spare : nat -> nat.

Implicit Type r : PodSetReconciler C S.

(** The scaling blocks of the listing. *)
Definition scale r (podSet : PodSet) (available : list corev1.Pod)
    (numAvailable : Z) : M Outcome :=
  down <-
    (if numAvailable >? Replicas (Spec podSet) then
       let diff := to_int32 (numAvailable - Replicas (Spec podSet)) in
       match slice_to corev1.zero (append_cap spare (length available)) available diff with
       | None => ret (Return Panicked)
       | Some dpods =>
           looped <-
             for_range dpods (fun dpod =>
               err <- r_Delete r dpod ;;
               match err with
               | Some err => ret (Return (Returned ctrl.Result0 (Some err)))
               | None => ret Continue
               end) ;;
           match looped with
           | Return out => ret (Return out)
           | Continue => ret (Return (Returned ctrl.ResultRequeue None))
           end
       end
     else ret Continue) ;;
  match down with
  | Return out => ret out
  | Continue =>
      if numAvailable <? Replicas (Spec podSet) then
        let pod := newPodForCR podSet in
        match SetControllerReference podSet pod (Scheme r) with
        | Err err => ret (Returned ctrl.Result0 (Some err))
        | Ok pod =>
            err <- r_Create r pod ;;
            match err with
            | Some err => ret (Returned ctrl.Result0 (Some err))
            | None => ret (Returned ctrl.ResultRequeue None)
            end
        end
      else ret (Returned ctrl.Result0 None)
  end.

(** [Reconcile] as listed in the tutorial. *)
Definition Reconcile r (req : ctrl.Request) : M Outcome :=
  got <- r_Get r (ctrl.NamespacedName req) ;;
  match got with
  | Err err =>
      if errors.IsNotFound err
      then ret (Returned ctrl.Result0 None)
      else ret (Returned ctrl.Result0 (Some err))
  | Ok instance =>
      let podSet := instance in
      listed <- r_List r (listOptsFor podSet) ;;
      match listed with
      | Err err => ret (Returned ctrl.Result0 (Some err))
      | Ok podList =>
          let available := availablePods (corev1.Items podList) in
          let numAvailable := len32 available in
          let availableNames := podNamesOf available in
          let status :=
            {| PodNames := Some availableNames;
               AvailableReplicas := numAvailable |} in
          if negb (DeepEqual (Status podSet) status) then
            let podSet := withStatus podSet status in
            err <- r_StatusUpdate r podSet ;;
            match err with
            | Some err => ret (Returned ctrl.Result0 (Some err))
            | None => scale r podSet available numAvailable
            end
          else scale r podSet available numAvailable
      end
  end.

End Reconciler.

End tutorial.

(** ** More vocabulary *)

(** The pods of a list that a run of [Delete] calls reaches, each call made
    only if the one before succeeded, and the error that stopped the run. *)
Fixpoint deleted_until_failure (delete : corev1.Pod -> option error)
    (dpods : list corev1.Pod) : list corev1.Pod * option error :=
  match dpods with
  | [] => ([], None)
  | dpod :: dpods' =>
      match delete dpod with
      | Some err => ([dpod], Some err)
      | None =>
          let (reached, stopped) := deleted_until_failure delete dpods' in
          (dpod :: reached, stopped)
      end
  end.

(** Ownership in the words of the specification: a pod is a PodSet's when it
    is in the PodSet's namespace and carries the ownership label pair
    [app] = the PodSet's name, [version] = "v0.1". *)
Definition ownedBy (podSet : PodSet) (pod : corev1.Pod) : bool :=
  String.eqb (metav1.Namespace (corev1.ObjectMeta pod))
             (metav1.Namespace (ObjectMeta podSet))
  && bool_decide (metav1.Labels (corev1.ObjectMeta pod) !! "app"
                  = Some (metav1.Name (ObjectMeta podSet)))
  && bool_decide (metav1.Labels (corev1.ObjectMeta pod) !! "version"
                  = Some "v0.1").

(** The client answers every listing from one snapshot of the store's pods:
    the pods of the namespace asked for (of any namespace when none is asked
    for) whose labels the selector matches, in the snapshot's order. *)
Definition lists_from {C : Type} `{client.Client C} (c : C)
    (snapshot : list corev1.Pod) : Prop :=
  forall opts,
    client.List c opts
    = Ok {| corev1.Items := List.filter (fake.selects opts) snapshot |}.

(** Two pods with the same name, deletion timestamp and phase. *)
Definition same_for_status (p q : corev1.Pod) : Prop :=
  metav1.Name (corev1.ObjectMeta p) = metav1.Name (corev1.ObjectMeta q)
  /\ metav1.DeletionTimestamp (corev1.ObjectMeta p)
     = metav1.DeletionTimestamp (corev1.ObjectMeta q)
  /\ corev1.Phase (corev1.Status p) = corev1.Phase (corev1.Status q).

Module cases.

Import fake.

(** More scenarios for the in-memory cluster. *)
Definition demo_none : Cluster :=
  {| podsets := [demo 2 noStatus]; pods := five; getErr := Some conflict;
     listErr := None; updateErr := None; deleteErr := None; createErr := None |}.

Definition demo_unlisted : Cluster :=
  {| podsets := [demo 2 noStatus]; pods := five; getErr := None;
     listErr := Some conflict; updateErr := None; deleteErr := None;
     createErr := None |}.

Definition demo_fresh : Cluster := healthy [demo 0 noStatus] [].

Definition demo_negative : Cluster := healthy [demo (-1) noStatus] [].

Definition demo_undeletable : Cluster :=
  {| podsets := [demo 2 noStatus]; pods := crowd; getErr := None;
     listErr := None; updateErr := None; deleteErr := Some conflict;
     createErr := None |}.

Definition run_tutorial (cl : Cluster) (registered : bool) (req : ctrl.Request)
  : M Outcome :=
  tutorial.Reconcile setControllerReference tight
    {| Client := cl; Scheme := registered |} req.

(** The pod with its labels and owner references cleared. *)
Definition stripped (p : corev1.Pod) : corev1.Pod :=
  {| corev1.ObjectMeta :=
       {| metav1.Name := metav1.Name (corev1.ObjectMeta p);
          metav1.GenerateName := "";
          metav1.Namespace := metav1.Namespace (corev1.ObjectMeta p);
          metav1.UID := metav1.UID (corev1.ObjectMeta p);
          metav1.Labels := ∅;
          metav1.DeletionTimestamp :=
            metav1.DeletionTimestamp (corev1.ObjectMeta p);
          metav1.OwnerReferences := [] |};
     corev1.Spec := corev1.Spec p;
     corev1.Status := corev1.Status p |}.

End cases.

(** * Properties *)

(** ** Integers *)

Lemma to_int32_small (z : Z) : - 2 ^ 31 <= z <= max_int32 -> to_int32 z = z.
Proof.
  unfold to_int32, max_int32. intros Hz.
  rewrite Z.mod_small by lia. lia.
Qed.

Lemma len32_small {A} (s : list A) :
  Z.of_nat (length s) <= max_int32 -> len32 s = Z.of_nat (length s).
Proof. intros Hs. apply to_int32_small. lia. Qed.

(** A difference of two [int32] values that is positive as an integer is not
    zero after the conversion. *)
Lemma to_int32_diff_nonzero (a b : Z) :
  - 2 ^ 31 <= a <= max_int32 -> - 2 ^ 31 <= b <= max_int32 ->
  b < a -> to_int32 (a - b) <> 0.
Proof.
  unfold to_int32, max_int32. intros Ha Hb Hlt Heq.
  destruct (Z_lt_le_dec (a - b) (2 ^ 31)) as [Hs | Hl].
  - rewrite Z.mod_small in Heq by lia. lia.
  - replace (a - b + 2 ^ 31) with ((a - b - 2 ^ 31) + 1 * 2 ^ 32) in Heq by lia.
    rewrite Z.mod_add in Heq by lia.
    rewrite Z.mod_small in Heq by lia. lia.
Qed.

Lemma to_int32_range (z : Z) : - 2 ^ 31 <= to_int32 z <= max_int32.
Proof.
  unfold to_int32, max_int32.
  pose proof (Z.mod_pos_bound (z + 2 ^ 31) (2 ^ 32)). lia.
Qed.

(** ** The status computation *)

Lemma availablePods_acc (items acc : list corev1.Pod) :
  fold_left
    (fun available pod =>
       match metav1.DeletionTimestamp (corev1.ObjectMeta pod) with
       | Some _ => available
       | None =>
           if String.eqb (corev1.Phase (corev1.Status pod)) corev1.PodRunning
              || String.eqb (corev1.Phase (corev1.Status pod)) corev1.PodPending
           then available ++ [pod]
           else available
       end)
    items acc
  = acc ++ List.filter isAvailable items.
Proof.
  revert acc. induction items as [| pod items IH]; intros acc; simpl.
  - now rewrite app_nil_r.
  - rewrite IH. unfold isAvailable.
    destruct (metav1.DeletionTimestamp (corev1.ObjectMeta pod)); [reflexivity |].
    rewrite (orb_comm (String.eqb _ corev1.PodPending)).
    destruct (String.eqb _ corev1.PodRunning || String.eqb _ corev1.PodPending);
      [| reflexivity].
    now rewrite <- app_assoc.
Qed.

Lemma availablePods_filter (items : list corev1.Pod) :
  availablePods items = List.filter isAvailable items.
Proof. unfold availablePods. now rewrite availablePods_acc. Qed.

Lemma podNamesOf_acc (available : list corev1.Pod) (acc : list string) :
  fold_left
    (fun availableNames pod =>
       availableNames ++ [metav1.Name (corev1.ObjectMeta pod)])
    available acc
  = acc ++ List.map podName available.
Proof.
  revert acc. induction available as [| pod available IH]; intros acc; simpl.
  - now rewrite app_nil_r.
  - rewrite IH. now rewrite <- app_assoc.
Qed.

Lemma podNamesOf_map (available : list corev1.Pod) :
  podNamesOf available = List.map podName available.
Proof. unfold podNamesOf. now rewrite podNamesOf_acc. Qed.

Lemma computeStatus_skip (before after : list corev1.Pod) (pod : corev1.Pod) :
  isAvailable pod = false ->
  computeStatus (before ++ pod :: after) = computeStatus (before ++ after).
Proof.
  intros Hpod. unfold computeStatus.
  rewrite !availablePods_filter, !List.filter_app. simpl. now rewrite Hpod.
Qed.

Lemma computeStatus_counts_available_aux (items : list corev1.Pod) :
  Z.of_nat (length (List.filter isAvailable items)) <= max_int32 ->
  AvailableReplicas (computeStatus items)
    = Z.of_nat (length (List.filter isAvailable items)).
Proof.
  intros Hfit. unfold computeStatus; cbn.
  rewrite availablePods_filter. now apply len32_small.
Qed.

(** C3. The status computed from a pod list: [podNames] is the names of the
    pods without a deletion marker whose phase is Pending or Running, in list
    order, and [availableReplicas] is their number (as an [int32], which is
    the number itself whenever it fits in 32 bits).  A pod with a deletion
    marker does not contribute whatever its phase, nor does a pod whose phase
    is Failed, Succeeded or Unknown whatever its deletion marker, and the
    empty list gives no names and zero. *)
Theorem computeStatus_counts_available :
  (forall items : list corev1.Pod,
     PodNames (computeStatus items)
       = Some (List.map podName (List.filter isAvailable items))
     /\ AvailableReplicas (computeStatus items)
          = to_int32 (Z.of_nat (length (List.filter isAvailable items)))
     /\ (Z.of_nat (length (List.filter isAvailable items)) <= max_int32 ->
         AvailableReplicas (computeStatus items)
           = Z.of_nat (length (List.filter isAvailable items))))
  /\ (forall before after pod,
        metav1.DeletionTimestamp (corev1.ObjectMeta pod) <> None ->
        computeStatus (before ++ pod :: after) = computeStatus (before ++ after))
  /\ (forall before after pod,
        corev1.Phase (corev1.Status pod) = corev1.PodFailed
        \/ corev1.Phase (corev1.Status pod) = corev1.PodSucceeded
        \/ corev1.Phase (corev1.Status pod) = corev1.PodUnknown ->
        computeStatus (before ++ pod :: after) = computeStatus (before ++ after))
  /\ computeStatus [] = {| PodNames := Some []; AvailableReplicas := 0 |}.
Proof.
  repeat split.
  - unfold computeStatus; simpl. now rewrite podNamesOf_map, availablePods_filter.
  - unfold computeStatus, len32; simpl. now rewrite availablePods_filter.
  - intros Hfit. unfold computeStatus; simpl.
    rewrite availablePods_filter. now apply len32_small.
  - intros before after pod Hdel. apply computeStatus_skip.
    unfold isAvailable.
    destruct (metav1.DeletionTimestamp (corev1.ObjectMeta pod)); congruence.
  - intros before after pod Hphase. apply computeStatus_skip.
    unfold isAvailable.
    destruct (metav1.DeletionTimestamp (corev1.ObjectMeta pod)); [reflexivity |].
    destruct Hphase as [-> | [-> | ->]]; reflexivity.
Qed.

(** ** Every pass is one of the runs *)

Section RunFacts.

Context {C : Type} `{client.Client C} {S : Type}.
Variable SetControllerReference :
  PodSet -> corev1.Pod -> S -> result corev1.Pod.
Variable spare : nat -> nat.

Implicit Type r : PodSetReconciler C S.

Lemma for_range_delete r (dpods : list corev1.Pod) :
  for_range dpods
    (fun dpod =>
       err <- r_Delete r dpod ;;
       match err with
       | Some err => ret (Return (Returned ctrl.Result0 (Some err)))
       | None => ret (Return (Returned ctrl.ResultRequeue None))
       end)
  = match dpods with
    | [] => (Continue, [])
    | dpod :: _ =>
        (Return (after_call (client.Delete (Client r) dpod)),
         [ {| call := CallDelete dpod;
              failure := client.Delete (Client r) dpod |} ])
    end.
Proof.
  destruct dpods as [| dpod dpods]; [reflexivity |].
  cbn [for_range]. unfold bind, r_Delete, ret, after_call. cbn [fst snd].
  destruct (client.Delete (Client r) dpod); reflexivity.
Qed.

Lemma scale_sound r podSet available numAvailable :
  scale_run SetControllerReference spare r podSet available numAvailable
    (scale SetControllerReference spare r podSet available numAvailable).
Proof.
  unfold scale.
  destruct (Z.gtb_spec numAvailable (Replicas (Spec podSet))) as [Hgt | Hle].
  - destruct (slice_to _ _ _ _) as [dpods |] eqn:Hslice.
    + rewrite for_range_delete.
      destruct dpods as [| dpod dpods]; cbn.
      * destruct (Z.ltb_spec numAvailable (Replicas (Spec podSet))); [lia |].
        apply scale_empty_slice; [lia | exact Hslice].
      * eapply scale_deletes; [lia | exact Hslice].
    + cbn. apply scale_panics; [lia | exact Hslice].
  - cbn.
    destruct (Z.ltb_spec numAvailable (Replicas (Spec podSet))) as [Hlt | Hge].
    + destruct (SetControllerReference _ _ _) as [pod | err] eqn:Hown.
      * cbn. unfold r_Create, bind. cbn.
        replace (match client.Create (Client r) pod with
                 | Some err => ret (Returned ctrl.Result0 (Some err))
                 | None => ret (Returned ctrl.ResultRequeue None)
                 end)
          with (after_call (client.Create (Client r) pod), @nil Event)
          by (unfold after_call; destruct (client.Create (Client r) pod); reflexivity).
        apply scale_creates; assumption.
      * cbn. apply scale_owner_fails with (err := err); assumption.
    + cbn. apply scale_nothing. lia.
Qed.

Lemma Reconcile_sound r req :
  pass_run SetControllerReference spare r req
    (Reconcile SetControllerReference spare r req).
Proof.
  unfold Reconcile, r_Get, r_List, r_StatusUpdate, bind. cbn [fst snd].
  destruct (client.Get (Client r) (ctrl.NamespacedName req)) as [podSet | err] eqn:Hget.
  - destruct (client.List (Client r) (listOptsFor podSet)) as [podList | err] eqn:Hlist.
    + cbv zeta. fold (computeStatus (corev1.Items podList)).
      destruct (DeepEqual (Status podSet) (computeStatus (corev1.Items podList))) eqn:Heq;
        cbn [negb].
      * pose proof (scale_sound r podSet (availablePods (corev1.Items podList))
                      (len32 (availablePods (corev1.Items podList)))) as Hs.
        destruct (scale _ _ r podSet _ _) as [out t].
        cbn. eapply pass_unchanged; eassumption.
      * destruct (client.StatusUpdate (Client r) _) as [err |] eqn:Hupd.
        -- cbn. eapply pass_update_fails; eassumption.
        -- pose proof (scale_sound r
                         (withStatus podSet (computeStatus (corev1.Items podList)))
                         (availablePods (corev1.Items podList))
                         (len32 (availablePods (corev1.Items podList)))) as Hs.
           destruct (scale _ _ r _ _ _) as [out t].
           cbn. eapply pass_updates; eassumption.
    + cbn. eapply pass_list_fails; eassumption.
  - cbn. destruct (errors.IsNotFound err) eqn:Hnf; cbn.
    + apply pass_absent; assumption.
    + apply pass_get_fails; assumption.
Qed.

End RunFacts.

(** ** Deep equality and slices *)

Lemma DeepEqual_eq (a b : PodSetStatus) : DeepEqual a b = true <-> a = b.
Proof.
  unfold DeepEqual. destruct a as [na ra], b as [nb rb]; cbn.
  rewrite andb_true_iff, Z.eqb_eq. split.
  - intros [Hn ->]. destruct na, nb; try discriminate; [| reflexivity].
    apply bool_decide_eq_true in Hn. now subst.
  - intros Heq. injection Heq as -> ->. split; [| reflexivity].
    destruct nb; [| reflexivity]. now apply bool_decide_eq_true.
Qed.

Lemma withStatus_same (ps : PodSet) : withStatus ps (Status ps) = ps.
Proof. now destruct ps. Qed.

Lemma append_cap_ge (spare : nat -> nat) (n : nat) : (n <= append_cap spare n)%nat.
Proof. destruct n; cbn; lia. Qed.

(** Within the length, [s[:hi]] is the first [hi] elements. *)
Lemma slice_to_prefix {A} (zero : A) (cap : nat) (s : list A) (hi : Z) :
  (length s <= cap)%nat -> 0 <= hi <= Z.of_nat (length s) ->
  slice_to zero cap s hi = Some (firstn (Z.to_nat hi) s).
Proof.
  intros Hcap Hhi. unfold slice_to.
  destruct (Z.leb_spec 0 hi); [| lia].
  destruct (Z.leb_spec hi (Z.of_nat cap)); [| lia].
  cbn. f_equal. rewrite firstn_app.
  replace (Z.to_nat hi - length s)%nat with O by lia.
  cbn. apply app_nil_r.
Qed.

Lemma slice_to_length {A} (zero : A) (cap : nat) (s dpods : list A) (hi : Z) :
  (length s <= cap)%nat ->
  slice_to zero cap s hi = Some dpods ->
  0 <= hi /\ length dpods = Z.to_nat hi.
Proof.
  intros Hcap. unfold slice_to.
  destruct (Z.leb_spec 0 hi); [| discriminate].
  destruct (Z.leb_spec hi (Z.of_nat cap)); [| discriminate].
  cbn. intros [= <-]. split; [assumption |].
  rewrite length_firstn, length_app, repeat_length. lia.
Qed.

Section TraceFacts.

Context {C : Type} `{client.Client C} {S : Type}.
Variable SetControllerReference :
  PodSet -> corev1.Pod -> S -> result corev1.Pod.
Variable spare : nat -> nat.

Implicit Type r : PodSetReconciler C S.

(** [scale] makes at most one call, and never a status update or a read. *)
Lemma scale_run_trace r podSet available numAvailable out t :
  scale_run SetControllerReference spare r podSet available numAvailable (out, t) ->
  updates t = [] /\ lists t = []
  /\ (creates t = [] \/ deletes t = [])
  /\ (length (creates t) <= 1)%nat /\ (length (deletes t) <= 1)%nat
  /\ persisted podSet t = podSet.
Proof.
  intros Hrun. inversion Hrun; subst; cbn; repeat split; auto.
Qed.

(** With an [int32] replica count below the number of available pods, the
    slice of pods to delete is never empty: the loop body runs. *)
Lemma scale_down_slice_nonempty podSet (available : list corev1.Pod) :
  - 2 ^ 31 <= Replicas (Spec podSet) <= max_int32 ->
  Replicas (Spec podSet) < len32 available ->
  slice_to corev1.zero (append_cap spare (length available)) available
    (to_int32 (len32 available - Replicas (Spec podSet))) <> Some [].
Proof.
  intros Hrep Hgt Hslice.
  apply slice_to_length in Hslice as [Hpos Hlen]; [| apply append_cap_ge].
  cbn in Hlen.
  apply (to_int32_diff_nonzero (len32 available) (Replicas (Spec podSet)));
    [apply to_int32_range | assumption | assumption | lia].
Qed.

(** Scaling down with a sane replica count: the slice is the excess, and the
    loop body returns in its first iteration, after one [Delete]. *)
Lemma scale_down_run r podSet available :
  0 <= Replicas (Spec podSet) < Z.of_nat (length available) ->
  Z.of_nat (length available) <= max_int32 ->
  exists dpod rest,
    available = dpod :: rest
    /\ slice_to corev1.zero (append_cap spare (length available)) available
         (to_int32 (len32 available - Replicas (Spec podSet)))
       = Some (firstn (length available - Z.to_nat (Replicas (Spec podSet))) available)
    /\ scale SetControllerReference spare r podSet available (len32 available)
       = (after_call (client.Delete (Client r) dpod),
          [ {| call := CallDelete dpod;
               failure := client.Delete (Client r) dpod |} ]).
Proof.
  intros Hrep Hfit.
  destruct available as [| dpod rest]; [cbn in Hrep; lia |].
  exists dpod, rest. split; [reflexivity |].
  set (available := dpod :: rest) in *.
  assert (Hslice :
    slice_to corev1.zero (append_cap spare (length available)) available
      (to_int32 (len32 available - Replicas (Spec podSet)))
    = Some (firstn (length available - Z.to_nat (Replicas (Spec podSet))) available)).
  { rewrite len32_small by assumption.
    rewrite to_int32_small by (unfold max_int32 in *; lia).
    rewrite slice_to_prefix by (try apply append_cap_ge; lia).
    do 2 f_equal. lia. }
  split; [exact Hslice |].
  assert (Hfirst : exists more,
    firstn (length available - Z.to_nat (Replicas (Spec podSet))) available
    = dpod :: more).
  { subst available. cbn [length].
    destruct (Datatypes.S (length rest) - Z.to_nat (Replicas (Spec podSet)))%nat
      as [| k] eqn:Hk; [cbn [length] in Hrep; lia |].
    cbn. eauto. }
  destruct Hfirst as [more Hfirst]. rewrite Hfirst in Hslice.
  unfold scale. rewrite Hslice, for_range_delete.
  rewrite len32_small by assumption.
  destruct (Z.gtb_spec (Z.of_nat (length available)) (Replicas (Spec podSet)));
    [| lia].
  reflexivity.
Qed.

End TraceFacts.

(** ** The pass as a whole *)

Section PassFacts.

Context {C : Type} `{client.Client C} {S : Type}.
Variable SetControllerReference :
  PodSet -> corev1.Pod -> S -> result corev1.Pod.
Variable spare : nat -> nat.

Implicit Type r : PodSetReconciler C S.

Local Abbreviation Reconcile' := (Reconcile SetControllerReference spare).

(** C7. When the fetch of the PodSet answers NotFound, the pass returns
    [ctrl.Result{}] with a nil error, and the fetch is the only call it makes:
    no list, no create, no delete, no status update. *)
Theorem Reconcile_absent_is_done r req err :
  client.Get (Client r) (ctrl.NamespacedName req) = Err err ->
  errors.IsNotFound err = true ->
  Reconcile' r req
    = (Returned ctrl.Result0 None,
       [ {| call := CallGet (ctrl.NamespacedName req); failure := Some err |} ])
  /\ lists (snd (Reconcile' r req)) = []
  /\ creates (snd (Reconcile' r req)) = []
  /\ deletes (snd (Reconcile' r req)) = []
  /\ updates (snd (Reconcile' r req)) = [].
Proof.
  intros Hget Hnf.
  assert (Hrun : Reconcile' r req
    = (Returned ctrl.Result0 None,
       [ {| call := CallGet (ctrl.NamespacedName req); failure := Some err |} ])).
  { unfold Reconcile, r_Get, bind. cbn [fst snd]. rewrite Hget, Hnf. reflexivity. }
  rewrite Hrun. repeat split; reflexivity.
Qed.

(** C5. No pass both creates and deletes: whatever the client answers, the
    trace of a pass has no [Create] call or has no [Delete] call (and at most
    one call of either kind). *)
Theorem Reconcile_never_creates_and_deletes r req :
  (creates (snd (Reconcile' r req)) = [] \/ deletes (snd (Reconcile' r req)) = [])
  /\ (length (creates (snd (Reconcile' r req)))
      + length (deletes (snd (Reconcile' r req))) <= 1)%nat.
Proof.
  destruct (Reconcile_sound SetControllerReference spare r req)
    as [err Hget Hnf | err Hget Hnf | podSet err Hget Hlist
        | podSet podList err Hget Hlist Heq Hupd
        | podSet podList out t Hget Hlist Heq Hupd Hscale
        | podSet podList out t Hget Hlist Heq Hscale]; cbn;
    try (split; [left; reflexivity | lia]).
  - inversion Hscale; subst; cbn; split; auto; lia.
  - inversion Hscale; subst; cbn; split; auto; lia.
Qed.

(** C2, as the code has it.  When the status update of a pass fails, the pass
    returns that error with [ctrl.Result{}] and stops there: it makes no
    [Create] and no [Delete] call. *)
Theorem Reconcile_update_failure_stops r req obj err :
  In {| call := CallStatusUpdate obj; failure := Some err |}
     (snd (Reconcile' r req)) ->
  fst (Reconcile' r req) = Returned ctrl.Result0 (Some err)
  /\ creates (snd (Reconcile' r req)) = []
  /\ deletes (snd (Reconcile' r req)) = [].
Proof.
  destruct (Reconcile_sound SetControllerReference spare r req)
    as [e Hget Hnf | e Hget Hnf | podSet e Hget Hlist
        | podSet podList e Hget Hlist Heq Hupd
        | podSet podList out t Hget Hlist Heq Hupd Hscale
        | podSet podList out t Hget Hlist Heq Hscale]; cbn [fst snd]; intros Hin.
  - destruct Hin as [Hev | []]. discriminate.
  - destruct Hin as [Hev | []]. discriminate.
  - destruct Hin as [Hev | [Hev | []]]; discriminate.
  - destruct Hin as [Hev | [Hev | [Hev | []]]]; try discriminate.
    injection Hev as _ <-. repeat split; reflexivity.
  - destruct Hin as [Hev | [Hev | [Hev | Hin]]]; try discriminate.
    inversion Hscale; subst; cbn in Hin; intuition discriminate.
  - destruct Hin as [Hev | [Hev | Hin]]; try discriminate.
    inversion Hscale; subst; cbn in Hin; intuition discriminate.
Qed.

(** The pass up to the scaling step, when the status write does not fail. *)
Lemma Reconcile_reaches_scale r req podSet podList :
  client.Get (Client r) (ctrl.NamespacedName req) = Ok podSet ->
  client.List (Client r) (listOptsFor podSet) = Ok podList ->
  (DeepEqual (Status podSet) (computeStatus (corev1.Items podList)) = false ->
   client.StatusUpdate (Client r)
     (withStatus podSet (computeStatus (corev1.Items podList))) = None) ->
  exists before,
    Reconcile' r req
    = (fst (scale SetControllerReference spare r
              (withStatus podSet (computeStatus (corev1.Items podList)))
              (availablePods (corev1.Items podList))
              (len32 (availablePods (corev1.Items podList)))),
       before ++
       snd (scale SetControllerReference spare r
              (withStatus podSet (computeStatus (corev1.Items podList)))
              (availablePods (corev1.Items podList))
              (len32 (availablePods (corev1.Items podList)))))
    /\ creates before = [] /\ deletes before = []
    /\ persisted podSet before
       = withStatus podSet (computeStatus (corev1.Items podList)).
Proof.
  intros Hget Hlist Hupd.
  unfold Reconcile, r_Get, r_List, r_StatusUpdate, bind. cbn [fst snd].
  rewrite Hget, Hlist. cbv zeta. fold (computeStatus (corev1.Items podList)).
  destruct (DeepEqual (Status podSet) (computeStatus (corev1.Items podList))) eqn:Heq;
    cbn [negb].
  - apply DeepEqual_eq in Heq. rewrite <- Heq, withStatus_same.
    destruct (scale _ _ r podSet _ _) as [out t]. cbn [fst snd].
    exists [ {| call := CallGet (ctrl.NamespacedName req); failure := None |};
             {| call := CallList (listOptsFor podSet); failure := None |} ].
    repeat split; reflexivity.
  - rewrite (Hupd eq_refl).
    destruct (scale _ _ r _ _ _) as [out t]. cbn [fst snd].
    exists [ {| call := CallGet (ctrl.NamespacedName req); failure := None |};
             {| call := CallList (listOptsFor podSet); failure := None |};
             {| call := CallStatusUpdate
                          (withStatus podSet (computeStatus (corev1.Items podList)));
                failure := None |} ].
    repeat split; reflexivity.
Qed.

(** C6, as the code has it.  In a pass that reaches the scaling step (the
    PodSet was fetched, its pods were listed, and the status write, if one
    was needed, did not fail) with fewer available pods than desired replicas,
    and in which the owner reference can be set, exactly one [Create] call is
    made, for the factory's pod with the owner reference set, and no [Delete];
    if the creation succeeds the pass asks for a requeue, and if it fails the
    pass returns the error. *)
Theorem Reconcile_scale_up_creates_one r req podSet podList pod :
  client.Get (Client r) (ctrl.NamespacedName req) = Ok podSet ->
  client.List (Client r) (listOptsFor podSet) = Ok podList ->
  (DeepEqual (Status podSet) (computeStatus (corev1.Items podList)) = false ->
   client.StatusUpdate (Client r)
     (withStatus podSet (computeStatus (corev1.Items podList))) = None) ->
  Z.of_nat (length (List.filter isAvailable (corev1.Items podList)))
    < Replicas (Spec podSet) ->
  Replicas (Spec podSet) <= max_int32 ->
  SetControllerReference
    (withStatus podSet (computeStatus (corev1.Items podList)))
    (newPodForCR (withStatus podSet (computeStatus (corev1.Items podList))))
    (Scheme r) = Ok pod ->
  creates (snd (Reconcile' r req)) = [pod]
  /\ deletes (snd (Reconcile' r req)) = []
  /\ (client.Create (Client r) pod = None ->
      fst (Reconcile' r req) = Returned ctrl.ResultRequeue None)
  /\ (forall err, client.Create (Client r) pod = Some err ->
      fst (Reconcile' r req) = Returned ctrl.Result0 (Some err)).
Proof.
  intros Hget Hlist Hupd Hfew Hrep Hown.
  destruct (Reconcile_reaches_scale r req podSet podList Hget Hlist Hupd)
    as (before & -> & Hc & Hd & _).
  cbn [fst snd]. unfold creates, deletes in *. rewrite !flat_map_app, Hc, Hd.
  cbn [app].
  rewrite availablePods_filter, len32_small by lia.
  unfold scale.
  destruct (Z.gtb_spec
              (Z.of_nat (length (List.filter isAvailable (corev1.Items podList))))
              (Replicas (Spec (withStatus podSet
                                 (computeStatus (corev1.Items podList))))))
    as [Hgt | _]; [cbn in Hgt; lia |].
  destruct (Z.ltb_spec
              (Z.of_nat (length (List.filter isAvailable (corev1.Items podList))))
              (Replicas (Spec (withStatus podSet
                                 (computeStatus (corev1.Items podList))))))
    as [_ | Hge]; [| cbn in Hge; lia].
  unfold bind, r_Create, ret. cbn [fst snd app]. rewrite Hown. cbn [fst snd app].
  destruct (client.Create (Client r) pod) as [e |]; cbn;
    repeat split; try reflexivity; try discriminate.
  intros err [= ->]. reflexivity.
Qed.

(** After a pass that fetched the PodSet, listed its pods and returned a nil
    error, the status the store holds for the PodSet is the status computed
    from the answer of the list call. *)
Lemma Reconcile_status_is_computed r req podSet podList res :
  client.Get (Client r) (ctrl.NamespacedName req) = Ok podSet ->
  client.List (Client r) (listOptsFor podSet) = Ok podList ->
  fst (Reconcile' r req) = Returned res None ->
  Status (persisted podSet (snd (Reconcile' r req)))
    = computeStatus (corev1.Items podList)
  /\ (Z.of_nat (length (List.filter isAvailable (corev1.Items podList)))
        <= max_int32 ->
      AvailableReplicas (Status (persisted podSet (snd (Reconcile' r req))))
      = Z.of_nat (length (List.filter isAvailable (corev1.Items podList)))).
Proof.
  intros Hget Hlist Hok.
  assert (Hst : Status (persisted podSet (snd (Reconcile' r req)))
                = computeStatus (corev1.Items podList)).
  { destruct (Reconcile_sound SetControllerReference spare r req)
      as [e Hget' Hnf | e Hget' Hnf | podSet' e Hget' Hlist'
          | podSet' podList' e Hget' Hlist' Heq Hupd
          | podSet' podList' out t Hget' Hlist' Heq Hupd Hscale
          | podSet' podList' out t Hget' Hlist' Heq Hscale];
      rewrite Hget in Hget'; try discriminate;
      injection Hget' as <-; rewrite Hlist in Hlist'; try discriminate;
      try injection Hlist' as <-; cbn [fst snd] in *; try discriminate.
    - apply scale_run_trace in Hscale as (_ & _ & _ & _ & _ & Hp).
      cbn [persisted]. now rewrite Hp.
    - apply scale_run_trace in Hscale as (_ & _ & _ & _ & _ & Hp).
      cbn [persisted]. rewrite Hp. now apply DeepEqual_eq. }
  split; [exact Hst |].
  intros Hfit. rewrite Hst. now apply computeStatus_counts_available_aux.
Qed.

(** C10. Every status that a pass writes has [availableReplicas] equal to the
    length of its [podNames] (as an [int32], which is the length itself
    whenever it fits in 32 bits), and its [podNames] are the names of the
    listed pods that count as available, in list order. *)
Theorem Reconcile_written_status_consistent r req obj :
  In obj (updates (snd (Reconcile' r req))) ->
  exists podSet podList names,
    client.Get (Client r) (ctrl.NamespacedName req) = Ok podSet
    /\ client.List (Client r) (listOptsFor podSet) = Ok podList
    /\ names = List.map podName (List.filter isAvailable (corev1.Items podList))
    /\ PodNames (Status obj) = Some names
    /\ AvailableReplicas (Status obj) = to_int32 (Z.of_nat (length names))
    /\ (Z.of_nat (length names) <= max_int32 ->
        AvailableReplicas (Status obj) = Z.of_nat (length names)).
Proof.
  assert (Hwritten : forall items,
    PodNames (computeStatus items)
      = Some (List.map podName (List.filter isAvailable items))
    /\ AvailableReplicas (computeStatus items)
       = to_int32 (Z.of_nat (length (List.map podName (List.filter isAvailable items))))
    /\ (Z.of_nat (length (List.map podName (List.filter isAvailable items)))
          <= max_int32 ->
        AvailableReplicas (computeStatus items)
        = Z.of_nat (length (List.map podName (List.filter isAvailable items))))).
  { intros items. rewrite length_map. unfold computeStatus; cbn.
    rewrite podNamesOf_map, availablePods_filter. unfold len32.
    repeat split; try reflexivity. intros Hfit. apply to_int32_small. lia. }
  destruct (Reconcile_sound SetControllerReference spare r req)
    as [e Hget Hnf | e Hget Hnf | podSet e Hget Hlist
        | podSet podList e Hget Hlist Heq Hupd
        | podSet podList out t Hget Hlist Heq Hupd Hscale
        | podSet podList out t Hget Hlist Heq Hscale];
    cbn [fst snd]; intros Hin; try (now destruct Hin).
  - destruct Hin as [<- | []].
    exists podSet, podList, (List.map podName (List.filter isAvailable (corev1.Items podList))).
    cbn [Status withStatus]. repeat split; try assumption; apply Hwritten.
  - apply scale_run_trace in Hscale as (Hu & _).
    change (In obj (withStatus podSet (computeStatus (corev1.Items podList))
                    :: updates t)) in Hin.
    rewrite Hu in Hin. destruct Hin as [<- | []].
    exists podSet, podList, (List.map podName (List.filter isAvailable (corev1.Items podList))).
    cbn [Status withStatus]. repeat split; try assumption; apply Hwritten.
  - apply scale_run_trace in Hscale as (Hu & _).
    change (In obj (updates t)) in Hin. rewrite Hu in Hin. destruct Hin.
Qed.

(** Scaling down, in general: a pass that reaches the scaling step with more
    available pods than a non-negative replica count makes one [Delete] call,
    for the first available pod, and returns. *)
Lemma Reconcile_scale_down_deletes_first r req podSet podList :
  client.Get (Client r) (ctrl.NamespacedName req) = Ok podSet ->
  client.List (Client r) (listOptsFor podSet) = Ok podList ->
  (DeepEqual (Status podSet) (computeStatus (corev1.Items podList)) = false ->
   client.StatusUpdate (Client r)
     (withStatus podSet (computeStatus (corev1.Items podList))) = None) ->
  0 <= Replicas (Spec podSet)
    < Z.of_nat (length (List.filter isAvailable (corev1.Items podList))) ->
  Z.of_nat (length (List.filter isAvailable (corev1.Items podList))) <= max_int32 ->
  exists dpod rest,
    List.filter isAvailable (corev1.Items podList) = dpod :: rest
    /\ deletes (snd (Reconcile' r req)) = [dpod]
    /\ creates (snd (Reconcile' r req)) = []
    /\ fst (Reconcile' r req) = after_call (client.Delete (Client r) dpod).
Proof.
  intros Hget Hlist Hupd Hrep Hfit.
  destruct (Reconcile_reaches_scale r req podSet podList Hget Hlist Hupd)
    as (before & -> & Hc & Hd & _).
  rewrite availablePods_filter.
  destruct (scale_down_run SetControllerReference spare r
              (withStatus podSet (computeStatus (corev1.Items podList)))
              (List.filter isAvailable (corev1.Items podList)) Hrep Hfit)
    as (dpod & rest & Hav & _ & ->).
  exists dpod, rest. cbn [fst snd]. unfold creates, deletes in *.
  rewrite !flat_map_app, Hc, Hd. repeat split; try reflexivity. exact Hav.
Qed.

End PassFacts.

(** ** The pod factory *)

Lemma prefix_append (s t : string) : String.prefix s (String.append s t) = true.
Proof.
  induction s as [| c s IH].
  - now destruct t.
  - change (String.append (String c s) t) with (String c (String.append s t)).
    cbn [String.prefix].
    destruct (Ascii.ascii_dec c c); [exact IH | contradiction].
Qed.

Lemma Matches_SelectorFromSet (set ls : gmap string string) :
  (forall k v, set !! k = Some v -> ls !! k = Some v) ->
  labels.Matches (labels.SelectorFromSet set) ls = true.
Proof.
  intros Hsub. unfold labels.Matches, labels.SelectorFromSet; cbn.
  apply forallb_forall. intros [k v] Hin. cbn.
  apply bool_decide_eq_true, Hsub.
  apply elem_of_map_to_list, list_elem_of_In, Hin.
Qed.

(** C9. The pod built for a PodSet depends only on the PodSet's name and
    namespace; its labels are exactly [app] = the PodSet's name and
    [version] = "v0.1"; it is in the PodSet's namespace; it has no name of
    its own but a [GenerateName] that starts with the PodSet's name, from
    which the store generates the name; and the selector and namespace that
    [Reconcile] lists with select it, as they select any pod with its labels
    and namespace. *)
Theorem newPodForCR_is_listed (cr : PodSet) :
  (forall cr' : PodSet,
      metav1.Name (ObjectMeta cr') = metav1.Name (ObjectMeta cr) ->
      metav1.Namespace (ObjectMeta cr') = metav1.Namespace (ObjectMeta cr) ->
      newPodForCR cr' = newPodForCR cr)
  /\ (forall k : string,
        metav1.Labels (corev1.ObjectMeta (newPodForCR cr)) !! k
        = if String.eqb k "app" then Some (metav1.Name (ObjectMeta cr))
          else if String.eqb k "version" then Some "v0.1"
          else None)
  /\ metav1.Namespace (corev1.ObjectMeta (newPodForCR cr))
     = metav1.Namespace (ObjectMeta cr)
  /\ metav1.Name (corev1.ObjectMeta (newPodForCR cr)) = ""
  /\ metav1.GenerateName (corev1.ObjectMeta (newPodForCR cr))
     = String.append (metav1.Name (ObjectMeta cr)) "-pod"
  /\ String.prefix (metav1.Name (ObjectMeta cr))
       (metav1.GenerateName (corev1.ObjectMeta (newPodForCR cr))) = true
  /\ labels.Matches (client.LabelSelector (listOptsFor cr))
       (metav1.Labels (corev1.ObjectMeta (newPodForCR cr))) = true
  /\ (forall pod : corev1.Pod,
        metav1.Labels (corev1.ObjectMeta pod)
        = metav1.Labels (corev1.ObjectMeta (newPodForCR cr)) ->
        metav1.Namespace (corev1.ObjectMeta pod)
        = metav1.Namespace (corev1.ObjectMeta (newPodForCR cr)) ->
        fake.selects (listOptsFor cr) pod = true).
Proof.
  split; [| split; [| split; [| split; [| split; [| split; [| split]]]]]].
  - intros cr' Hname Hns. unfold newPodForCR. now rewrite Hname, Hns.
  - intros k. cbn.
    destruct (String.eqb_spec k "app") as [-> | Happ].
    + now rewrite lookup_insert_eq.
    + rewrite lookup_insert_ne by congruence.
      destruct (String.eqb_spec k "version") as [-> | Hver].
      * now rewrite lookup_insert_eq.
      * rewrite lookup_insert_ne by congruence. apply lookup_empty.
  - reflexivity.
  - reflexivity.
  - reflexivity.
  - cbn. apply prefix_append.
  - cbn. apply Matches_SelectorFromSet. auto.
  - intros pod Hlabels Hns. unfold fake.selects.
    rewrite Hlabels, Hns. cbn.
    rewrite String.eqb_refl, orb_true_r. cbn.
    apply Matches_SelectorFromSet. auto.
Qed.

(** ** Replaying a pass *)

Section Replay.

Context {C1 : Type} `{client.Client C1} {C2 : Type} `{client.Client C2} {S : Type}.
Variable SetControllerReference :
  PodSet -> corev1.Pod -> S -> result corev1.Pod.
Variable spare : nat -> nat.

Lemma scale_replay (r1 : PodSetReconciler C1 S) (r2 : PodSetReconciler C2 S)
    podSet available numAvailable :
  same_answers (Client r1) (Client r2) -> Scheme r1 = Scheme r2 ->
  scale SetControllerReference spare r1 podSet available numAvailable
  = scale SetControllerReference spare r2 podSet available numAvailable.
Proof.
  intros (_ & _ & _ & Hdel & Hcre) Hscheme.
  unfold scale. rewrite Hscheme.
  destruct (numAvailable >? Replicas (Spec podSet));
    [destruct (slice_to _ _ _ _) as [dpods |];
       [rewrite !for_range_delete; destruct dpods as [| dpod dpods] |] |];
    rewrite ?Hdel; try reflexivity;
    (destruct (numAvailable <? Replicas (Spec podSet)); [| reflexivity]);
    (destruct (SetControllerReference _ _ _) as [pod | err]; [| reflexivity]);
    unfold r_Create; now rewrite Hcre.
Qed.

(** A pass that ended with [ctrl.Result{}] and no error on a fetched PodSet
    found the listing in agreement with the replica count or sliced off
    nothing; either way a pass over the same listing and the persisted
    PodSet only reads. *)
Lemma scale_done_again (r1 : PodSetReconciler C1 S) (r2 : PodSetReconciler C2 S)
    podSet podSet' available numAvailable t :
  Spec podSet' = Spec podSet ->
  scale_run SetControllerReference spare r1 podSet available numAvailable
    (Returned ctrl.Result0 None, t) ->
  t = []
  /\ scale SetControllerReference spare r2 podSet' available numAvailable
     = (Returned ctrl.Result0 None, []).
Proof.
  intros Hspec Hrun.
  assert (Hafter : forall failed,
    after_call failed <> Returned ctrl.Result0 None).
  { intros [e |]; discriminate. }
  unfold scale. rewrite Hspec.
  inversion Hrun as [Hgt Hs | Hgt Hs | d ds Hgt Hs Hout | err Hlt | pod Hlt Hown Hout | Heq];
    subst.
  - split; [reflexivity |].
    destruct (Z.gtb_spec numAvailable (Replicas (Spec podSet))); [| lia].
    rewrite Hs, for_range_delete. cbn.
    destruct (Z.ltb_spec numAvailable (Replicas (Spec podSet))); [lia |].
    reflexivity.
  - now apply Hafter in Hout.
  - now apply Hafter in Hout.
  - split; [reflexivity |].
    rewrite Z.gtb_ltb, !Z.ltb_irrefl. reflexivity.
Qed.

Local Abbreviation Reconcile' := (Reconcile SetControllerReference spare).

(** C8. A pass is a function of what the store answers: two reconcilers
    whose clients answer every call alike (and whose schemes agree) run the
    same pass, with the same outcome and the same calls.  And once a pass has
    returned [ctrl.Result{}] with a nil error, any later pass that finds the
    store as that pass left it returns [ctrl.Result{}] with a nil error again
    and makes no [Create], [Delete] or status update call. *)
Theorem Reconcile_level_triggered
    (r1 : PodSetReconciler C1 S) (r2 : PodSetReconciler C2 S) req :
  (same_answers (Client r1) (Client r2) -> Scheme r1 = Scheme r2 ->
   Reconcile' r1 req = Reconcile' r2 req)
  /\ (fst (Reconcile' r1 req) = Returned ctrl.Result0 None ->
      left_by (Client r1) (ctrl.NamespacedName req) (snd (Reconcile' r1 req))
        (Client r2) ->
      fst (Reconcile' r2 req) = Returned ctrl.Result0 None
      /\ creates (snd (Reconcile' r2 req)) = []
      /\ deletes (snd (Reconcile' r2 req)) = []
      /\ updates (snd (Reconcile' r2 req)) = []).
Proof.
  split.
  - intros Hsame Hscheme.
    pose proof Hsame as (Hget & Hlist & Hupd & _).
    unfold Reconcile, r_Get, r_List, r_StatusUpdate, bind. cbn [fst snd].
    rewrite Hget.
    destruct (client.Get (Client r2) (ctrl.NamespacedName req)) as [podSet | err];
      [| reflexivity].
    rewrite Hlist.
    destruct (client.List (Client r2) (listOptsFor podSet)) as [podList | err];
      [| reflexivity].
    cbv zeta. destruct (negb _).
    + rewrite Hupd.
      destruct (client.StatusUpdate (Client r2) _); [reflexivity |].
      now rewrite (scale_replay r1 r2).
    + now rewrite (scale_replay r1 r2).
  - intros Hdone [Hget2 Hlist2].
    destruct (Reconcile_sound SetControllerReference spare r1 req)
      as [e Hget Hnf | e Hget Hnf | podSet e Hget Hlist
          | podSet podList e Hget Hlist Heq Hupd
          | podSet podList out t Hget Hlist Heq Hupd Hscale
          | podSet podList out t Hget Hlist Heq Hscale];
      cbn [fst snd] in Hdone, Hget2; try discriminate; rewrite Hget in Hget2.
    + unfold Reconcile, r_Get, bind. cbn [fst snd]. rewrite Hget2, Hnf.
      repeat split; reflexivity.
    + subst out.
      destruct (scale_done_again r1 r2 _
                  (withStatus podSet (computeStatus (corev1.Items podList)))
                  _ _ _ eq_refl Hscale) as [-> Hscale2].
      cbn [persisted] in Hget2.
      unfold Reconcile, r_Get, r_List, bind. cbn [fst snd]. rewrite Hget2.
      change (listOptsFor (withStatus podSet (computeStatus (corev1.Items podList))))
        with (listOptsFor podSet).
      rewrite Hlist2, Hlist. cbv zeta. fold (computeStatus (corev1.Items podList)).
      replace (DeepEqual _ (computeStatus (corev1.Items podList))) with true
        by (symmetry; now apply DeepEqual_eq).
      cbn [negb]. rewrite Hscale2. repeat split; reflexivity.
    + subst out.
      destruct (scale_done_again r1 r2 _ podSet _ _ _ eq_refl Hscale)
        as [-> Hscale2].
      cbn [persisted] in Hget2.
      unfold Reconcile, r_Get, r_List, bind. cbn [fst snd].
      rewrite Hget2, Hlist2, Hlist. cbv zeta.
      fold (computeStatus (corev1.Items podList)). rewrite Heq.
      cbn [negb]. rewrite Hscale2. repeat split; reflexivity.
Qed.

End Replay.

(** ** The controller on concrete clusters *)

(** C1, on the code.  With five available pods and two desired replicas the
    excess is three pods, but the pass makes a single [Delete] call, for the
    first available pod, and returns from inside the loop asking for a
    requeue. *)
Theorem scale_down_five_to_two_deletes_one :
  availablePods (List.filter (fake.selects (listOptsFor (fake.demo 2 fake.noStatus)))
                   fake.crowd) = fake.five
  /\ (length fake.five - 2 = 3)%nat
  /\ deletes (snd (fake.run fake.demo_down true (fake.request "demo")))
     = firstn 1 fake.five
  /\ fst (fake.run fake.demo_down true (fake.request "demo"))
     = Returned ctrl.ResultRequeue None.
Proof. vm_compute. repeat split; reflexivity. Qed.

(** C2 fails as stated: the status update is due and fails, a pod is
    missing, and the pass makes no [Create] (and no [Delete]) call. *)
Lemma update_failure_skips_scaling :
  In {| call := CallStatusUpdate (fake.demo 1 (computeStatus []));
        failure := Some fake.conflict |}
     (snd (fake.run fake.demo_conflict true (fake.request "demo")))
  /\ len32 (availablePods []) < Replicas (Spec (fake.demo 1 fake.noStatus))
  /\ fst (fake.run fake.demo_conflict true (fake.request "demo"))
     = Returned ctrl.Result0 (Some fake.conflict)
  /\ creates (snd (fake.run fake.demo_conflict true (fake.request "demo"))) = []
  /\ deletes (snd (fake.run fake.demo_conflict true (fake.request "demo"))) = [].
Proof.
  vm_compute. repeat split; try reflexivity.
  right; right; left; reflexivity.
Qed.

(** C6 fails as stated: two pods of "demo" are available and three are
    desired, yet the pass whose status update fails makes no [Create] call,
    and so does the pass that cannot set the owner reference. *)
Lemma scale_up_skipped_after_update_failure :
  client.List fake.demo_conflict_up (listOptsFor (fake.demo 3 fake.noStatus))
    = Ok {| corev1.Items := fake.mixed |}
  /\ Z.of_nat (length (List.filter isAvailable fake.mixed))
     < Replicas (Spec (fake.demo 3 fake.noStatus))
  /\ length (creates (snd (fake.run fake.demo_conflict_up true
                             (fake.request "demo")))) <> 1%nat
  /\ length (creates (snd (fake.run fake.demo_up false
                             (fake.request "demo")))) <> 1%nat.
Proof.
  vm_compute. split; [reflexivity | split; [reflexivity | split; discriminate]].
Qed.

(** ** The theorems at work *)

Lemma computeStatus_counts_available_witness :
  AvailableReplicas (computeStatus fake.mixed) = 2
  /\ computeStatus fake.mixed
     = computeStatus [ fake.pod "demo" "demo-pod-a" corev1.PodRunning None;
                       fake.pod "demo" "demo-pod-c" corev1.PodFailed None;
                       fake.pod "demo" "demo-pod-d" corev1.PodPending None ]
  /\ computeStatus fake.mixed
     = computeStatus [ fake.pod "demo" "demo-pod-a" corev1.PodRunning None;
                       fake.pod "demo" "demo-pod-b" corev1.PodRunning (Some 1660000000);
                       fake.pod "demo" "demo-pod-d" corev1.PodPending None ].
Proof.
  destruct computeStatus_counts_available as (Hall & Hdeleted & Hphase & _).
  split; [| split].
  - destruct (Hall fake.mixed) as (_ & _ & Hfit).
    apply Hfit. vm_compute. discriminate.
  - apply (Hdeleted [fake.pod "demo" "demo-pod-a" corev1.PodRunning None]).
    discriminate.
  - apply (Hphase [ fake.pod "demo" "demo-pod-a" corev1.PodRunning None;
                    fake.pod "demo" "demo-pod-b" corev1.PodRunning (Some 1660000000) ]).
    left. reflexivity.
Defined.

Lemma Reconcile_absent_is_done_witness :
  fake.run fake.demo_absent true (fake.request "demo")
    = (Returned ctrl.Result0 None,
       [ {| call := CallGet (ctrl.NamespacedName (fake.request "demo"));
            failure := Some fake.notFound |} ])
  /\ lists (snd (fake.run fake.demo_absent true (fake.request "demo"))) = []
  /\ creates (snd (fake.run fake.demo_absent true (fake.request "demo"))) = []
  /\ deletes (snd (fake.run fake.demo_absent true (fake.request "demo"))) = []
  /\ updates (snd (fake.run fake.demo_absent true (fake.request "demo"))) = [].
Proof.
  apply (Reconcile_absent_is_done fake.setControllerReference fake.tight
           (fake.reconciler fake.demo_absent) (fake.request "demo") fake.notFound);
    reflexivity.
Defined.

Lemma Reconcile_update_failure_stops_witness :
  fst (fake.run fake.demo_conflict true (fake.request "demo"))
    = Returned ctrl.Result0 (Some fake.conflict)
  /\ creates (snd (fake.run fake.demo_conflict true (fake.request "demo"))) = []
  /\ deletes (snd (fake.run fake.demo_conflict true (fake.request "demo"))) = [].
Proof.
  apply (Reconcile_update_failure_stops fake.setControllerReference fake.tight
           (fake.reconciler fake.demo_conflict) (fake.request "demo")
           (fake.demo 1 (computeStatus []))).
  vm_compute. right; right; left; reflexivity.
Defined.

Lemma Reconcile_scale_up_creates_one_witness :
  creates (snd (fake.run fake.demo_up true (fake.request "demo")))
    = [ fake.withOwner (fake.demo 3 (computeStatus fake.mixed))
          (newPodForCR (fake.demo 3 (computeStatus fake.mixed))) ]
  /\ deletes (snd (fake.run fake.demo_up true (fake.request "demo"))) = []
  /\ fst (fake.run fake.demo_up true (fake.request "demo"))
     = Returned ctrl.ResultRequeue None.
Proof.
  assert (Hfew : Z.of_nat (length (List.filter isAvailable fake.mixed)) < 3)
    by (vm_compute; reflexivity).
  assert (Hrep : 3 <= max_int32) by (vm_compute; discriminate).
  destruct (@Reconcile_scale_up_creates_one fake.Cluster fake.cluster_client bool
              fake.setControllerReference fake.tight
              (fake.reconciler fake.demo_up) (fake.request "demo")
              (fake.demo 3 fake.noStatus) {| corev1.Items := fake.mixed |}
              (fake.withOwner (fake.demo 3 (computeStatus fake.mixed))
                 (newPodForCR (fake.demo 3 (computeStatus fake.mixed))))
              ltac:(reflexivity) ltac:(reflexivity) ltac:(reflexivity)
              Hfew Hrep ltac:(reflexivity))
    as (Hc & Hd & Hok & _).
  split; [exact Hc | split; [exact Hd | apply Hok; reflexivity]].
Defined.

Lemma Reconcile_written_status_consistent_witness :
  exists podSet podList names,
    client.Get fake.demo_steady (ctrl.NamespacedName (fake.request "demo"))
      = Ok podSet
    /\ client.List fake.demo_steady (listOptsFor podSet) = Ok podList
    /\ names = List.map podName (List.filter isAvailable (corev1.Items podList))
    /\ PodNames (Status (fake.demo 2 (computeStatus fake.mixed))) = Some names
    /\ AvailableReplicas (Status (fake.demo 2 (computeStatus fake.mixed)))
       = to_int32 (Z.of_nat (length names))
    /\ (Z.of_nat (length names) <= max_int32 ->
        AvailableReplicas (Status (fake.demo 2 (computeStatus fake.mixed)))
        = Z.of_nat (length names)).
Proof.
  apply (Reconcile_written_status_consistent fake.setControllerReference
           fake.tight (fake.reconciler fake.demo_steady) (fake.request "demo")
           (fake.demo 2 (computeStatus fake.mixed))).
  vm_compute. left. reflexivity.
Defined.

Lemma newPodForCR_is_listed_witness :
  newPodForCR (fake.demo 7 (fake.statusOf ["demo-pod-a"]))
    = newPodForCR (fake.demo 3 fake.noStatus)
  /\ fake.selects (listOptsFor (fake.demo 3 fake.noStatus))
       (fake.pod "demo" "demo-pod-xk2vq" corev1.PodPending None) = true.
Proof.
  destruct (newPodForCR_is_listed (fake.demo 3 fake.noStatus))
    as (Hpure & _ & _ & _ & _ & _ & _ & Hlisted).
  split.
  - apply Hpure; reflexivity.
  - apply Hlisted; reflexivity.
Defined.

Lemma Reconcile_level_triggered_witness :
  fake.run fake.demo_steady true (fake.request "demo")
    = fake.run fake.demo_steady true (fake.request "demo")
  /\ fst (fake.run fake.demo_settled true (fake.request "demo"))
     = Returned ctrl.Result0 None
  /\ creates (snd (fake.run fake.demo_settled true (fake.request "demo"))) = []
  /\ deletes (snd (fake.run fake.demo_settled true (fake.request "demo"))) = []
  /\ updates (snd (fake.run fake.demo_settled true (fake.request "demo"))) = [].
Proof.
  split.
  - apply (proj1 (Reconcile_level_triggered fake.setControllerReference fake.tight
                    (fake.reconciler fake.demo_steady)
                    (fake.reconciler fake.demo_steady) (fake.request "demo")));
      [repeat split | reflexivity].
  - apply (proj2 (Reconcile_level_triggered fake.setControllerReference fake.tight
                    (fake.reconciler fake.demo_steady)
                    (fake.reconciler fake.demo_settled) (fake.request "demo")));
      [reflexivity | split; [reflexivity | intros opts; reflexivity]].
Defined.

(** * Further properties of the controller *)

(** The first pod of a slice [available[:hi]] of the appended pods is the
    first appended pod: a slice of the nil slice has no room for any. *)
Lemma slice_to_head (spare : nat -> nat) (available dpods : list corev1.Pod)
    (dpod : corev1.Pod) (hi : Z) :
  slice_to corev1.zero (append_cap spare (length available)) available hi
    = Some (dpod :: dpods) ->
  exists rest, available = dpod :: rest.
Proof.
  unfold slice_to.
  destruct ((0 <=? hi) && (hi <=? Z.of_nat (append_cap spare (length available))));
    [| discriminate].
  intros [= Hslice]. destruct available as [| pod rest].
  - cbn in Hslice. now destruct (Z.to_nat hi).
  - exists rest. cbn [app] in Hslice.
    destruct (Z.to_nat hi); cbn in Hslice; [discriminate |].
    now injection Hslice as -> _.
Qed.

Section CallFacts.

Context {C : Type} `{client.Client C} {S : Type}.
Variable SetControllerReference :
  PodSet -> corev1.Pod -> S -> result corev1.Pod.
Variable spare : nat -> nat.

Implicit Type r : PodSetReconciler C S.

Local Abbreviation Reconcile' := (Reconcile SetControllerReference spare).

Local Ltac pass_cases r req :=
  destruct (Reconcile_sound SetControllerReference spare r req)
    as [e Hget Hnf | e Hget Hnf | podSet e Hget Hlist
        | podSet podList e Hget Hlist Heq Hupd
        | podSet podList out t Hget Hlist Heq Hupd Hscale
        | podSet podList out t Hget Hlist Heq Hscale];
  [ | | | | inversion Hscale; subst | inversion Hscale; subst ];
  cbn [fst snd].

(** X1. A pass stops at the first call that fails: a call that returned an
    error is the last call of the pass, and the pass returns that error with
    [ctrl.Result{}] (the one exception being the fetch of a PodSet that is
    not found, after which the pass returns no error). *)
Theorem Reconcile_failed_call_is_last r req i ev err :
  nth_error (snd (Reconcile' r req)) i = Some ev ->
  failure ev = Some err ->
  Datatypes.S i = length (snd (Reconcile' r req))
  /\ (fst (Reconcile' r req) = Returned ctrl.Result0 (Some err)
      \/ (call ev = CallGet (ctrl.NamespacedName req)
          /\ errors.IsNotFound err = true
          /\ fst (Reconcile' r req) = Returned ctrl.Result0 None)).
Proof.
  pass_cases r req; intros Hnth Hfail;
    repeat (destruct i as [| i]; cbn in Hnth; try discriminate);
    injection Hnth as <-; cbn in Hfail; try discriminate;
    try (injection Hfail as <-); (split; [reflexivity |]); cbn; auto.
  all: rewrite Hfail; left; reflexivity.
Qed.

(** X2. An error a pass returns is never made up: it comes with
    [ctrl.Result{}], and it is the error of the last call of the pass or the
    error of [SetControllerReference], in which case no [Create] call was
    made. *)
Theorem Reconcile_error_has_a_source r req res err :
  fst (Reconcile' r req) = Returned res (Some err) ->
  res = ctrl.Result0
  /\ ((exists before ev,
         snd (Reconcile' r req) = before ++ [ev] /\ failure ev = Some err)
      \/ (exists podSet,
            SetControllerReference podSet (newPodForCR podSet) (Scheme r) = Err err
            /\ creates (snd (Reconcile' r req)) = [])).
Proof.
  pass_cases r req; intros Hout; try discriminate.
  - injection Hout as <- <-. split; [reflexivity |]. left.
    now exists [], {| call := CallGet (ctrl.NamespacedName req); failure := Some e |}.
  - injection Hout as <- <-. split; [reflexivity |]. left.
    now exists [ {| call := CallGet (ctrl.NamespacedName req); failure := None |} ],
      {| call := CallList (listOptsFor podSet); failure := Some e |}.
  - injection Hout as <- <-. split; [reflexivity |]. left.
    now exists [ {| call := CallGet (ctrl.NamespacedName req); failure := None |};
                 {| call := CallList (listOptsFor podSet); failure := None |} ],
      {| call := CallStatusUpdate
                   (withStatus podSet (computeStatus (corev1.Items podList)));
         failure := Some e |}.
  - destruct (client.Delete (Client r) dpod) as [e |] eqn:Hdel; [| discriminate].
    injection Hout as <- <-. split; [reflexivity |]. left.
    eexists [_; _; _], _. split; reflexivity.
  - injection Hout as <- <-. split; [reflexivity |]. right. eauto.
  - destruct (client.Create (Client r) pod) as [e |] eqn:Hcre; [| discriminate].
    injection Hout as <- <-. split; [reflexivity |]. left.
    eexists [_; _; _], _. split; reflexivity.
  - destruct (client.Delete (Client r) dpod) as [e |] eqn:Hdel; [| discriminate].
    injection Hout as <- <-. split; [reflexivity |]. left.
    eexists [_; _], _. split; reflexivity.
  - injection Hout as <- <-. split; [reflexivity |]. right. eauto.
  - destruct (client.Create (Client r) pod) as [e |] eqn:Hcre; [| discriminate].
    injection Hout as <- <-. split; [reflexivity |]. left.
    eexists [_; _], _. split; reflexivity.
Qed.

(** X3. A pass asks for a requeue exactly when it has created or deleted a
    pod: the result has [Requeue] set if and only if the pass made a
    [Create] or [Delete] call that succeeded; it then returns no error, and
    [RequeueAfter] is never set. *)
Theorem Reconcile_requeue_iff_mutated r req res err :
  fst (Reconcile' r req) = Returned res err ->
  (ctrl.Requeue res = true <->
   exists pod,
     In {| call := CallCreate pod; failure := None |} (snd (Reconcile' r req))
     \/ In {| call := CallDelete pod; failure := None |} (snd (Reconcile' r req)))
  /\ (ctrl.Requeue res = true -> err = None)
  /\ ctrl.RequeueAfter res = 0.
Proof.
  pass_cases r req;
    try destruct (client.Delete (Client r) dpod) as [e' |];
    try destruct (client.Create (Client r) pod) as [e' |];
    cbn [after_call]; intros Hout; try discriminate Hout;
    injection Hout as <- <-;
    (split; [split | split; [cbn; intros Hq; try discriminate Hq; reflexivity
                            | reflexivity]]);
    cbn.
  all: try (intros Hq; discriminate Hq).
  all: try (intros [pod' [Hin | Hin]]; exfalso; intuition discriminate).
  all: try (intros _; reflexivity).
  all: intros _; eexists; eauto 10.
Qed.

(** X4. The calls of a pass come in a fixed order: the fetch of the PodSet
    is call 0, the listing of its pods is call 1, a status update is call 2,
    and a [Create] or [Delete] comes after the reads and is the last call of
    the pass.  A pass makes at least one and at most four calls. *)
Theorem Reconcile_call_order r req :
  (1 <= length (snd (Reconcile' r req)) <= 4)%nat
  /\ forall i ev,
       nth_error (snd (Reconcile' r req)) i = Some ev ->
       match call ev with
       | CallGet key => i = O /\ key = ctrl.NamespacedName req
       | CallList _ => i = 1%nat
       | CallStatusUpdate _ => i = 2%nat
       | CallDelete _ | CallCreate _ =>
           (2 <= i)%nat /\ Datatypes.S i = length (snd (Reconcile' r req))
       end.
Proof.
  pass_cases r req; (split; [cbn; lia |]); intros i ev Hnth;
    repeat (destruct i as [| i]; cbn in Hnth; try discriminate);
    injection Hnth as <-; cbn; auto; split; auto; lia.
Qed.

(** The status updates of a pass that fetched the PodSet and listed its
    pods: none if the stored status is deep-equal to the computed one, and
    otherwise one, of the PodSet with the computed status. *)
Lemma Reconcile_updates r req ps pl :
  client.Get (Client r) (ctrl.NamespacedName req) = Ok ps ->
  client.List (Client r) (listOptsFor ps) = Ok pl ->
  updates (snd (Reconcile' r req))
  = if DeepEqual (Status ps) (computeStatus (corev1.Items pl))
    then []
    else [withStatus ps (computeStatus (corev1.Items pl))].
Proof.
  intros Hg Hl. pass_cases r req;
    rewrite Hg in Hget; try discriminate; injection Hget as <-;
    rewrite Hl in Hlist; try discriminate; try injection Hlist as <-;
    rewrite Heq; reflexivity.
Qed.

(** X5. The status is written only when it is out of date, and nothing but
    the status is written: a pass that fetched the PodSet and listed its pods
    makes no status update call if the stored status equals the one computed
    from the listing, and otherwise makes exactly one, for an object with the
    PodSet's metadata and spec and the computed status. *)
Theorem Reconcile_updates_status_iff_stale r req podSet podList :
  client.Get (Client r) (ctrl.NamespacedName req) = Ok podSet ->
  client.List (Client r) (listOptsFor podSet) = Ok podList ->
  (Status podSet = computeStatus (corev1.Items podList) ->
   updates (snd (Reconcile' r req)) = [])
  /\ (Status podSet <> computeStatus (corev1.Items podList) ->
      exists obj,
        updates (snd (Reconcile' r req)) = [obj]
        /\ ObjectMeta obj = ObjectMeta podSet
        /\ Spec obj = Spec podSet
        /\ Status obj = computeStatus (corev1.Items podList)).
Proof.
  intros Hg Hl. rewrite (Reconcile_updates r req podSet podList Hg Hl).
  destruct (DeepEqual (Status podSet) (computeStatus (corev1.Items podList))) eqn:Heq.
  - apply DeepEqual_eq in Heq. split; [reflexivity | congruence].
  - split.
    + intros Hsame. apply DeepEqual_eq in Hsame. congruence.
    + intros _. eexists. repeat split.
Qed.

(** X6. A PodSet whose stored [podNames] is the nil slice (as before its
    first status write) always has its status written: the computed
    [podNames] is never nil, not even for an empty listing, so the two are
    never deep-equal. *)
Theorem Reconcile_nil_podNames_is_rewritten r req podSet podList :
  client.Get (Client r) (ctrl.NamespacedName req) = Ok podSet ->
  client.List (Client r) (listOptsFor podSet) = Ok podList ->
  PodNames (Status podSet) = None ->
  updates (snd (Reconcile' r req))
  = [withStatus podSet (computeStatus (corev1.Items podList))].
Proof.
  intros Hg Hl Hnil. rewrite (Reconcile_updates r req podSet podList Hg Hl).
  unfold DeepEqual. rewrite Hnil. reflexivity.
Qed.

(** X7. The only pod a pass ever deletes is the first available pod of its
    listing: every [Delete] call is for the first listed pod that has no
    deletion timestamp and is Running or Pending, whatever the replica
    count. *)
Theorem Reconcile_deletes_first_available r req dpod :
  In dpod (deletes (snd (Reconcile' r req))) ->
  exists podSet podList rest,
    client.Get (Client r) (ctrl.NamespacedName req) = Ok podSet
    /\ client.List (Client r) (listOptsFor podSet) = Ok podList
    /\ List.filter isAvailable (corev1.Items podList) = dpod :: rest.
Proof.
  pass_cases r req; cbn; intros Hin; try (now destruct Hin);
    destruct Hin as [<- | []];
    match goal with
    | Hs : slice_to _ _ _ _ = Some _ |- _ =>
        apply slice_to_head in Hs as [rest Hav];
        rewrite availablePods_filter in Hav
    end;
    exists podSet, podList, rest; auto.
Qed.

(** X8. Scaling down removes one pod per pass, however large the excess: a
    pass that reaches the scaling step with more available pods than the
    (non-negative) replica count makes exactly one [Delete] call, for the
    first available pod, and no [Create]; it asks for a requeue if the
    deletion succeeds and returns the error if it fails. *)
Theorem Reconcile_scale_down_one_delete r req podSet podList :
  client.Get (Client r) (ctrl.NamespacedName req) = Ok podSet ->
  client.List (Client r) (listOptsFor podSet) = Ok podList ->
  (DeepEqual (Status podSet) (computeStatus (corev1.Items podList)) = false ->
   client.StatusUpdate (Client r)
     (withStatus podSet (computeStatus (corev1.Items podList))) = None) ->
  0 <= Replicas (Spec podSet)
    < Z.of_nat (length (List.filter isAvailable (corev1.Items podList))) ->
  Z.of_nat (length (List.filter isAvailable (corev1.Items podList))) <= max_int32 ->
  exists dpod rest,
    List.filter isAvailable (corev1.Items podList) = dpod :: rest
    /\ deletes (snd (Reconcile' r req)) = [dpod]
    /\ creates (snd (Reconcile' r req)) = []
    /\ (client.Delete (Client r) dpod = None ->
        fst (Reconcile' r req) = Returned ctrl.ResultRequeue None)
    /\ (forall err, client.Delete (Client r) dpod = Some err ->
        fst (Reconcile' r req) = Returned ctrl.Result0 (Some err)).
Proof.
  intros Hg Hl Hupd Hrep Hfit.
  destruct (Reconcile_scale_down_deletes_first SetControllerReference spare
              r req podSet podList Hg Hl Hupd Hrep Hfit)
    as (dpod & rest & Hav & Hd & Hc & Hout).
  exists dpod, rest. rewrite Hout.
  repeat split; try assumption.
  - now intros ->.
  - now intros err ->.
Qed.

(** X9. A pass that finds as many available pods as replicas wanted does
    nothing to the pods: having reached the scaling step, it makes no
    [Create] and no [Delete] call and returns [ctrl.Result{}] with no
    error. *)
Theorem Reconcile_in_sync_is_done r req podSet podList :
  client.Get (Client r) (ctrl.NamespacedName req) = Ok podSet ->
  client.List (Client r) (listOptsFor podSet) = Ok podList ->
  (DeepEqual (Status podSet) (computeStatus (corev1.Items podList)) = false ->
   client.StatusUpdate (Client r)
     (withStatus podSet (computeStatus (corev1.Items podList))) = None) ->
  Z.of_nat (length (List.filter isAvailable (corev1.Items podList)))
    = Replicas (Spec podSet) ->
  Replicas (Spec podSet) <= max_int32 ->
  fst (Reconcile' r req) = Returned ctrl.Result0 None
  /\ creates (snd (Reconcile' r req)) = []
  /\ deletes (snd (Reconcile' r req)) = [].
Proof.
  intros Hg Hl Hupd Hsame Hrep.
  destruct (Reconcile_reaches_scale SetControllerReference spare r req
              podSet podList Hg Hl Hupd) as (before & -> & Hc & Hd & _).
  cbn [fst snd]. unfold creates, deletes in *. rewrite !flat_map_app, Hc, Hd.
  rewrite availablePods_filter, len32_small by lia.
  unfold scale. cbn [Spec withStatus]. rewrite Hsame.
  rewrite Z.gtb_ltb, !Z.ltb_irrefl. repeat split.
Qed.

(** X10. With a replica count that is not negative and a number of available
    pods an [int32] can hold, no pass panics: the slice of pods to delete
    is within bounds, and the pass returns. *)
Theorem Reconcile_does_not_panic r req :
  (forall podSet podList,
     client.Get (Client r) (ctrl.NamespacedName req) = Ok podSet ->
     client.List (Client r) (listOptsFor podSet) = Ok podList ->
     0 <= Replicas (Spec podSet)
     /\ Z.of_nat (length (List.filter isAvailable (corev1.Items podList)))
          <= max_int32) ->
  exists res err, fst (Reconcile' r req) = Returned res err.
Proof.
  intros Hsane. pass_cases r req; unfold after_call;
    repeat match goal with
           | |- context [match ?x with Some _ => _ | None => _ end] => destruct x
           end; eauto.
  all: exfalso; destruct (Hsane _ _ Hget Hlist) as [Hrep Hfit];
    match goal with
    | Hgt : _ > _, Hs : slice_to _ _ _ _ = None |- _ =>
        cbn [Spec withStatus] in Hgt, Hs;
        rewrite availablePods_filter in Hgt, Hs;
        rewrite len32_small in Hgt, Hs by assumption;
        rewrite to_int32_small in Hs by (unfold max_int32 in *; lia);
        rewrite slice_to_prefix in Hs by (try apply append_cap_ge; lia);
        discriminate Hs
    end.
Qed.

(** X11. A negative replica count with no available pod makes the pass
    panic: the scaling step slices [available[:diff]] with a positive (or
    wrapped) [diff] out of a nil slice, which is out of bounds.  No pod is
    created or deleted. *)
Theorem Reconcile_panics_on_negative_replicas r req podSet podList :
  client.Get (Client r) (ctrl.NamespacedName req) = Ok podSet ->
  client.List (Client r) (listOptsFor podSet) = Ok podList ->
  (DeepEqual (Status podSet) (computeStatus (corev1.Items podList)) = false ->
   client.StatusUpdate (Client r)
     (withStatus podSet (computeStatus (corev1.Items podList))) = None) ->
  List.filter isAvailable (corev1.Items podList) = [] ->
  - 2 ^ 31 <= Replicas (Spec podSet) < 0 ->
  fst (Reconcile' r req) = Panicked
  /\ creates (snd (Reconcile' r req)) = []
  /\ deletes (snd (Reconcile' r req)) = [].
Proof.
  intros Hg Hl Hupd Hnone Hrep.
  destruct (Reconcile_reaches_scale SetControllerReference spare r req
              podSet podList Hg Hl Hupd) as (before & -> & Hc & Hd & _).
  cbn [fst snd]. unfold creates, deletes in *. rewrite !flat_map_app, Hc, Hd.
  rewrite availablePods_filter, Hnone.
  unfold scale. cbn [Spec withStatus length append_cap].
  change (len32 (@nil corev1.Pod)) with 0.
  destruct (Z.gtb_spec 0 (Replicas (Spec podSet))) as [_ | Hle]; [| lia].
  assert (Hslice :
    slice_to corev1.zero 0 (@nil corev1.Pod)
      (to_int32 (0 - Replicas (Spec podSet))) = None).
  { pose proof (to_int32_diff_nonzero 0 (Replicas (Spec podSet))) as Hdiff.
    unfold slice_to. change (Z.of_nat 0) with 0.
    destruct (Z.leb_spec 0 (to_int32 (0 - Replicas (Spec podSet))));
      destruct (Z.leb_spec (to_int32 (0 - Replicas (Spec podSet))) 0);
      cbn [andb]; try reflexivity.
    exfalso. apply Hdiff; unfold max_int32; lia. }
  rewrite Hslice. repeat split.
Qed.

(** X12. When the owner reference cannot be set, no pod is created: a pass
    that reaches the scaling step with fewer available pods than replicas
    and gets an error from [SetControllerReference] returns that error with
    [ctrl.Result{}] and makes no [Create] (and no [Delete]) call. *)
Theorem Reconcile_owner_failure_creates_nothing r req podSet podList err :
  client.Get (Client r) (ctrl.NamespacedName req) = Ok podSet ->
  client.List (Client r) (listOptsFor podSet) = Ok podList ->
  (DeepEqual (Status podSet) (computeStatus (corev1.Items podList)) = false ->
   client.StatusUpdate (Client r)
     (withStatus podSet (computeStatus (corev1.Items podList))) = None) ->
  Z.of_nat (length (List.filter isAvailable (corev1.Items podList)))
    < Replicas (Spec podSet) ->
  Replicas (Spec podSet) <= max_int32 ->
  SetControllerReference
    (withStatus podSet (computeStatus (corev1.Items podList)))
    (newPodForCR (withStatus podSet (computeStatus (corev1.Items podList))))
    (Scheme r) = Err err ->
  fst (Reconcile' r req) = Returned ctrl.Result0 (Some err)
  /\ creates (snd (Reconcile' r req)) = []
  /\ deletes (snd (Reconcile' r req)) = [].
Proof.
  intros Hg Hl Hupd Hfew Hrep Hown.
  destruct (Reconcile_reaches_scale SetControllerReference spare r req
              podSet podList Hg Hl Hupd) as (before & -> & Hc & Hd & _).
  cbn [fst snd]. unfold creates, deletes in *. rewrite !flat_map_app, Hc, Hd.
  rewrite availablePods_filter, len32_small by lia.
  unfold scale. cbn [Spec withStatus] in *.
  destruct (Z.gtb_spec
              (Z.of_nat (length (List.filter isAvailable (corev1.Items podList))))
              (Replicas (Spec podSet))) as [Hgt | _]; [lia |].
  destruct (Z.ltb_spec
              (Z.of_nat (length (List.filter isAvailable (corev1.Items podList))))
              (Replicas (Spec podSet))) as [_ | Hge]; [| lia].
  unfold bind, ret. cbn [fst snd app]. rewrite Hown. repeat split.
Qed.

End CallFacts.

(** ** The listing filter and the status computation *)

Lemma Matches_SelectorFromSet_inv (set ls : gmap string string) (k v : string) :
  labels.Matches (labels.SelectorFromSet set) ls = true ->
  set !! k = Some v -> ls !! k = Some v.
Proof.
  unfold labels.Matches, labels.SelectorFromSet; cbn.
  rewrite forallb_forall. intros Hall Hset.
  apply (bool_decide_eq_true_1 (ls !! k = Some v)).
  apply (Hall (k, v)). now apply list_elem_of_In, elem_of_map_to_list.
Qed.

(** X13. The pods a pass lists are those of the PodSet's namespace whose
    labels carry both [app] = the PodSet's name and [version] = "v0.1":
    the selector of the list options matches a label set exactly when it
    has these two entries, whatever else it has. *)
Theorem listOptsFor_selects_by_labels (podSet : PodSet) (ls : gmap string string) :
  client.Namespace (listOptsFor podSet) = metav1.Namespace (ObjectMeta podSet)
  /\ (labels.Matches (client.LabelSelector (listOptsFor podSet)) ls = true
      <-> ls !! "app" = Some (metav1.Name (ObjectMeta podSet))
          /\ ls !! "version" = Some "v0.1").
Proof.
  split; [reflexivity |]. cbn. split.
  - intros Hm. split.
    + apply (Matches_SelectorFromSet_inv _ _ _ _ Hm), lookup_insert_eq.
    + apply (Matches_SelectorFromSet_inv _ _ _ _ Hm).
      rewrite lookup_insert_ne by discriminate. apply lookup_insert_eq.
  - intros [Happ Hver]. apply Matches_SelectorFromSet. intros k v.
    destruct (decide (k = "app")) as [-> | Hk].
    + rewrite lookup_insert_eq. now intros [= <-].
    + rewrite lookup_insert_ne by congruence.
      destruct (decide (k = "version")) as [-> | Hk'].
      * rewrite lookup_insert_eq. now intros [= <-].
      * rewrite lookup_insert_ne by congruence. now rewrite lookup_empty.
Qed.

Lemma filter_isAvailable_Permutation (items items' : list corev1.Pod) :
  Permutation items items' ->
  Permutation (List.filter isAvailable items) (List.filter isAvailable items').
Proof.
  induction 1 as [| pod l l' _ IH | p q l | l l' l'' _ IH1 _ IH2]; cbn.
  - constructor.
  - destruct (isAvailable pod); [now constructor | exact IH].
  - destruct (isAvailable p), (isAvailable q);
      try apply Permutation_refl. apply perm_swap.
  - now transitivity (List.filter isAvailable l').
Qed.

(** X14. The order of the listing does not change the count but does change
    the names' order: for two listings that are permutations of each other,
    [availableReplicas] is the same and the two [podNames] are permutations
    of each other. *)
Theorem computeStatus_permutation (items items' : list corev1.Pod) :
  Permutation items items' ->
  AvailableReplicas (computeStatus items) = AvailableReplicas (computeStatus items')
  /\ exists names names',
       PodNames (computeStatus items) = Some names
       /\ PodNames (computeStatus items') = Some names'
       /\ Permutation names names'.
Proof.
  intros Hperm. apply filter_isAvailable_Permutation in Hperm.
  unfold computeStatus, len32; cbn. rewrite !podNamesOf_map, !availablePods_filter.
  split.
  - now rewrite (Permutation_length Hperm).
  - eexists _, _. split; [reflexivity |]. split; [reflexivity |].
    now apply Permutation_map.
Qed.

Lemma filter_isAvailable_same (items items' : list corev1.Pod) :
  Forall2 same_for_status items items' ->
  Forall2 same_for_status (List.filter isAvailable items)
    (List.filter isAvailable items').
Proof.
  induction 1 as [| p q l l' Hpq _ IH]; cbn; [constructor |].
  assert (Hav : isAvailable p = isAvailable q).
  { destruct Hpq as (_ & Hdel & Hphase). unfold isAvailable.
    now rewrite Hdel, Hphase. }
  rewrite Hav. destruct (isAvailable q); [now constructor | exact IH].
Qed.

(** X15. The status depends on nothing but each pod's name, deletion
    timestamp and phase: two listings whose pods agree, one by one, on these
    three fields give the same status, whatever their labels, owner
    references, namespaces or containers. *)
Theorem computeStatus_reads_three_fields (items items' : list corev1.Pod) :
  Forall2 same_for_status items items' ->
  computeStatus items = computeStatus items'.
Proof.
  intros Hsame. apply filter_isAvailable_same in Hsame.
  unfold computeStatus, len32. rewrite !podNamesOf_map, !availablePods_filter.
  f_equal.
  - f_equal. induction Hsame as [| p q l l' Hpq _ IH]; cbn; [reflexivity |].
    destruct Hpq as (Hname & _). unfold podName at 1 3. now rewrite Hname, IH.
  - now rewrite (Forall2_length _ _ _ Hsame).
Qed.

Lemma filter_isAvailable_length (items : list corev1.Pod) :
  (length (List.filter isAvailable items) <= length items)%nat.
Proof.
  induction items as [| pod items IH]; cbn; [lia |].
  destruct (isAvailable pod); cbn; lia.
Qed.

(** X16. The status never reports more pods than were listed: [podNames] has
    at most as many names as the listing has pods, and, for a listing of a
    size an [int32] can hold, [availableReplicas] lies between zero and that
    size and equals the number of names. *)
Theorem computeStatus_bounds (items : list corev1.Pod) :
  (exists names,
     PodNames (computeStatus items) = Some names
     /\ (length names <= length items)%nat
     /\ (Z.of_nat (length items) <= max_int32 ->
         0 <= AvailableReplicas (computeStatus items) <= Z.of_nat (length items)
         /\ AvailableReplicas (computeStatus items) = Z.of_nat (length names))).
Proof.
  pose proof (filter_isAvailable_length items) as Hlen.
  unfold computeStatus; cbn. rewrite podNamesOf_map, availablePods_filter.
  eexists. split; [reflexivity |]. rewrite length_map. split; [exact Hlen |].
  intros Hfit. rewrite len32_small by lia. lia.
Qed.

(** ** The tutorial's listing against the controller *)

Lemma deleted_until_failure_all (delete : corev1.Pod -> option error)
    (dpods : list corev1.Pod) :
  (forall dpod, In dpod dpods -> delete dpod = None) ->
  deleted_until_failure delete dpods = (dpods, None).
Proof.
  induction dpods as [| dpod dpods IH]; intros Hall; cbn; [reflexivity |].
  rewrite (Hall dpod) by now left.
  rewrite IH by (intros d Hd; apply Hall; now right). reflexivity.
Qed.

Lemma deletes_of_delete_calls (delete : corev1.Pod -> option error)
    (dpods : list corev1.Pod) :
  deletes (List.map (fun dpod => {| call := CallDelete dpod; failure := delete dpod |})
             dpods) = dpods
  /\ creates (List.map (fun dpod => {| call := CallDelete dpod; failure := delete dpod |})
                dpods) = [].
Proof.
  induction dpods as [| dpod dpods [IHd IHc]]; cbn; [now split |].
  unfold deletes, creates in *. now rewrite IHd, IHc.
Qed.

Section TutorialFacts.

Context {C : Type} `{client.Client C} {S : Type}.
Variable SetControllerReference :
  PodSet -> corev1.Pod -> S -> result corev1.Pod.
Variable spare : nat -> nat.

Implicit Type r : PodSetReconciler C S.

(** The tutorial's loop: it goes on after a deletion that succeeded. *)
Lemma for_range_delete_each r (dpods : list corev1.Pod) :
  for_range dpods
    (fun dpod =>
       err <- r_Delete r dpod ;;
       match err with
       | Some err => ret (Return (Returned ctrl.Result0 (Some err)))
       | None => ret Continue
       end)
  = (match snd (deleted_until_failure (client.Delete (Client r)) dpods) with
     | Some err => Return (Returned ctrl.Result0 (Some err))
     | None => Continue
     end,
     List.map (fun dpod => {| call := CallDelete dpod;
                              failure := client.Delete (Client r) dpod |})
       (fst (deleted_until_failure (client.Delete (Client r)) dpods))).
Proof.
  set (body := fun dpod : corev1.Pod =>
                 err <- r_Delete r dpod ;;
                 match err with
                 | Some err => ret (Return (Returned ctrl.Result0 (Some err)))
                 | None => ret (@Continue Outcome)
                 end).
  assert (Hbody : forall dpod,
    body dpod
    = (match client.Delete (Client r) dpod with
       | Some err => Return (Returned ctrl.Result0 (Some err))
       | None => Continue
       end,
       [ {| call := CallDelete dpod; failure := client.Delete (Client r) dpod |} ])).
  { intros dpod. unfold body, bind, r_Delete, ret. cbn [fst snd].
    destruct (client.Delete (Client r) dpod); reflexivity. }
  clearbody body.
  induction dpods as [| dpod dpods IH]; [reflexivity |].
  cbn [for_range deleted_until_failure]. unfold bind. rewrite Hbody, IH.
  cbn [fst snd].
  destruct (client.Delete (Client r) dpod) as [err |] eqn:Hdel.
  - cbn. now rewrite Hdel.
  - destruct (deleted_until_failure (client.Delete (Client r)) dpods) as [reached stopped].
    cbn. now rewrite Hdel.
Qed.

(** Both passes up to the scaling step. *)
Lemma both_reach_scale r req :
  (tutorial.Reconcile SetControllerReference spare r req
   = Reconcile SetControllerReference spare r req
   /\ deletes (snd (Reconcile SetControllerReference spare r req)) = []
   /\ creates (snd (Reconcile SetControllerReference spare r req)) = [])
  \/ exists before podSet podList,
       client.Get (Client r) (ctrl.NamespacedName req) = Ok podSet
       /\ client.List (Client r) (listOptsFor podSet) = Ok podList
       /\ (DeepEqual (Status podSet) (computeStatus (corev1.Items podList)) = false ->
           client.StatusUpdate (Client r)
             (withStatus podSet (computeStatus (corev1.Items podList))) = None)
       /\ deletes before = [] /\ creates before = []
       /\ Reconcile SetControllerReference spare r req
          = (fst (scale SetControllerReference spare r
                    (withStatus podSet (computeStatus (corev1.Items podList)))
                    (availablePods (corev1.Items podList))
                    (len32 (availablePods (corev1.Items podList)))),
             before ++
             snd (scale SetControllerReference spare r
                    (withStatus podSet (computeStatus (corev1.Items podList)))
                    (availablePods (corev1.Items podList))
                    (len32 (availablePods (corev1.Items podList)))))
       /\ tutorial.Reconcile SetControllerReference spare r req
          = (fst (tutorial.scale SetControllerReference spare r
                    (withStatus podSet (computeStatus (corev1.Items podList)))
                    (availablePods (corev1.Items podList))
                    (len32 (availablePods (corev1.Items podList)))),
             before ++
             snd (tutorial.scale SetControllerReference spare r
                    (withStatus podSet (computeStatus (corev1.Items podList)))
                    (availablePods (corev1.Items podList))
                    (len32 (availablePods (corev1.Items podList))))).
Proof.
  unfold tutorial.Reconcile, Reconcile, r_Get, r_List, r_StatusUpdate, bind.
  cbn [fst snd].
  destruct (client.Get (Client r) (ctrl.NamespacedName req)) as [podSet | err] eqn:Hget.
  2: { left. destruct (errors.IsNotFound err); repeat split. }
  destruct (client.List (Client r) (listOptsFor podSet)) as [podList | err] eqn:Hlist.
  2: { left. repeat split. }
  cbv zeta. fold (computeStatus (corev1.Items podList)).
  destruct (DeepEqual (Status podSet) (computeStatus (corev1.Items podList))) eqn:Heq;
    cbn [negb].
  - right.
    exists [ {| call := CallGet (ctrl.NamespacedName req); failure := None |};
             {| call := CallList (listOptsFor podSet); failure := None |} ],
      podSet, podList.
    split; [first [reflexivity | assumption] |].
    split; [first [reflexivity | assumption] |].
    split; [congruence |]. split; [reflexivity |]. split; [reflexivity |].
    rewrite <- (proj1 (DeepEqual_eq _ _) Heq), withStatus_same.
    destruct (scale _ _ r podSet _ _) as [out t].
    destruct (tutorial.scale _ _ r podSet _ _) as [out' t'].
    split; reflexivity.
  - destruct (client.StatusUpdate (Client r) _) as [err |] eqn:Hupd.
    + left. repeat split.
    + right.
      exists [ {| call := CallGet (ctrl.NamespacedName req); failure := None |};
               {| call := CallList (listOptsFor podSet); failure := None |};
               {| call := CallStatusUpdate
                            (withStatus podSet (computeStatus (corev1.Items podList)));
                  failure := None |} ],
        podSet, podList.
      split; [first [reflexivity | assumption] |].
      split; [first [reflexivity | assumption] |].
      split; [first [reflexivity | intros _; assumption] |].
      split; [reflexivity |]. split; [reflexivity |].
      destruct (scale _ _ r _ _ _) as [out t].
      destruct (tutorial.scale _ _ r _ _ _) as [out' t'].
      split; reflexivity.
Qed.

Lemma tutorial_reaches_scale r req podSet podList :
  client.Get (Client r) (ctrl.NamespacedName req) = Ok podSet ->
  client.List (Client r) (listOptsFor podSet) = Ok podList ->
  (DeepEqual (Status podSet) (computeStatus (corev1.Items podList)) = false ->
   client.StatusUpdate (Client r)
     (withStatus podSet (computeStatus (corev1.Items podList))) = None) ->
  exists before,
    tutorial.Reconcile SetControllerReference spare r req
    = (fst (tutorial.scale SetControllerReference spare r
              (withStatus podSet (computeStatus (corev1.Items podList)))
              (availablePods (corev1.Items podList))
              (len32 (availablePods (corev1.Items podList)))),
       before ++
       snd (tutorial.scale SetControllerReference spare r
              (withStatus podSet (computeStatus (corev1.Items podList)))
              (availablePods (corev1.Items podList))
              (len32 (availablePods (corev1.Items podList)))))
    /\ creates before = [] /\ deletes before = [].
Proof.
  intros Hget Hlist Hupd.
  unfold tutorial.Reconcile, r_Get, r_List, r_StatusUpdate, bind. cbn [fst snd].
  rewrite Hget, Hlist. cbv zeta. fold (computeStatus (corev1.Items podList)).
  destruct (DeepEqual (Status podSet) (computeStatus (corev1.Items podList))) eqn:Heq;
    cbn [negb].
  - apply DeepEqual_eq in Heq. rewrite <- Heq, withStatus_same.
    destruct (tutorial.scale _ _ r podSet _ _) as [out t]. cbn [fst snd].
    exists [ {| call := CallGet (ctrl.NamespacedName req); failure := None |};
             {| call := CallList (listOptsFor podSet); failure := None |} ].
    repeat split; reflexivity.
  - rewrite (Hupd eq_refl).
    destruct (tutorial.scale _ _ r _ _ _) as [out t]. cbn [fst snd].
    exists [ {| call := CallGet (ctrl.NamespacedName req); failure := None |};
             {| call := CallList (listOptsFor podSet); failure := None |};
             {| call := CallStatusUpdate
                          (withStatus podSet (computeStatus (corev1.Items podList)));
                failure := None |} ].
    repeat split; reflexivity.
Qed.

(** X17. The tutorial's listing of [Reconcile] removes the whole excess in
    one pass: having reached the scaling step with more available pods than
    the (non-negative) replica count, it calls [Delete] on the first
    [available - replicas] available pods in order, stopping at the first
    call that fails; it returns that error, or asks for a requeue when every
    deletion succeeded, and it makes no [Create] call. *)
Theorem tutorial_scale_down_deletes_excess r req podSet podList :
  client.Get (Client r) (ctrl.NamespacedName req) = Ok podSet ->
  client.List (Client r) (listOptsFor podSet) = Ok podList ->
  (DeepEqual (Status podSet) (computeStatus (corev1.Items podList)) = false ->
   client.StatusUpdate (Client r)
     (withStatus podSet (computeStatus (corev1.Items podList))) = None) ->
  0 <= Replicas (Spec podSet)
    < Z.of_nat (length (List.filter isAvailable (corev1.Items podList))) ->
  Z.of_nat (length (List.filter isAvailable (corev1.Items podList))) <= max_int32 ->
  exists excess,
    excess = firstn (length (List.filter isAvailable (corev1.Items podList))
                     - Z.to_nat (Replicas (Spec podSet)))
               (List.filter isAvailable (corev1.Items podList))
    /\ Z.of_nat (length excess)
       = Z.of_nat (length (List.filter isAvailable (corev1.Items podList)))
         - Replicas (Spec podSet)
    /\ deletes (snd (tutorial.Reconcile SetControllerReference spare r req))
       = fst (deleted_until_failure (client.Delete (Client r)) excess)
    /\ creates (snd (tutorial.Reconcile SetControllerReference spare r req)) = []
    /\ fst (tutorial.Reconcile SetControllerReference spare r req)
       = match snd (deleted_until_failure (client.Delete (Client r)) excess) with
         | Some err => Returned ctrl.Result0 (Some err)
         | None => Returned ctrl.ResultRequeue None
         end
    /\ ((forall dpod, In dpod excess -> client.Delete (Client r) dpod = None) ->
        deletes (snd (tutorial.Reconcile SetControllerReference spare r req))
          = excess
        /\ fst (tutorial.Reconcile SetControllerReference spare r req)
           = Returned ctrl.ResultRequeue None).
Proof.
  intros Hg Hl Hupd Hrep Hfit.
  destruct (tutorial_reaches_scale r req podSet podList Hg Hl Hupd)
    as (before & -> & Hc & Hd).
  rewrite availablePods_filter.
  set (available := List.filter isAvailable (corev1.Items podList)) in *.
  destruct (scale_down_run SetControllerReference spare r
              (withStatus podSet (computeStatus (corev1.Items podList)))
              available Hrep Hfit) as (dpod & rest & _ & Hslice & _).
  cbn [Spec withStatus] in Hslice.
  set (excess := firstn (length available - Z.to_nat (Replicas (Spec podSet)))
                   available) in *.
  assert (Hrun :
    tutorial.scale SetControllerReference spare r
      (withStatus podSet (computeStatus (corev1.Items podList)))
      available (len32 available)
    = (match snd (deleted_until_failure (client.Delete (Client r)) excess) with
       | Some err => Returned ctrl.Result0 (Some err)
       | None => Returned ctrl.ResultRequeue None
       end,
       List.map (fun dpod => {| call := CallDelete dpod;
                                failure := client.Delete (Client r) dpod |})
         (fst (deleted_until_failure (client.Delete (Client r)) excess)))).
  { unfold tutorial.scale. cbn [Spec withStatus]. rewrite Hslice.
    rewrite len32_small by assumption.
    destruct (Z.gtb_spec (Z.of_nat (length available)) (Replicas (Spec podSet)));
      [| lia].
    unfold bind at 2. rewrite for_range_delete_each. cbn [fst snd].
    destruct (deleted_until_failure (client.Delete (Client r)) excess)
      as [reached [err |]]; cbn; now rewrite !app_nil_r. }
  rewrite Hrun. cbn [fst snd].
  destruct (deletes_of_delete_calls (client.Delete (Client r))
              (fst (deleted_until_failure (client.Delete (Client r)) excess)))
    as [Hdels Hcres].
  assert (Hdeletes :
    deletes (before ++
             List.map (fun dpod => {| call := CallDelete dpod;
                                      failure := client.Delete (Client r) dpod |})
               (fst (deleted_until_failure (client.Delete (Client r)) excess)))
    = fst (deleted_until_failure (client.Delete (Client r)) excess)).
  { unfold deletes in *. now rewrite flat_map_app, Hd, Hdels. }
  exists excess. split; [reflexivity |]. split.
  { subst excess. rewrite length_firstn. lia. }
  split; [exact Hdeletes |]. split.
  { unfold creates in *. now rewrite flat_map_app, Hc, Hcres. }
  split; [reflexivity |].
  intros Hall. rewrite Hdeletes.
  now rewrite (deleted_until_failure_all _ _ Hall).
Qed.

(** Where the two scaling blocks differ. *)
Lemma scale_prefix_of_tutorial r podSet (available : list corev1.Pod) :
  exists more,
    snd (tutorial.scale SetControllerReference spare r podSet available
           (len32 available))
    = snd (scale SetControllerReference spare r podSet available (len32 available))
      ++ more
    /\ (forall ev, In ev more -> exists dpod, call ev = CallDelete dpod)
    /\ creates more = [] /\ updates more = [] /\ lists more = []
    /\ (- 2 ^ 31 <= Replicas (Spec podSet) <= max_int32 ->
        deletes (snd (scale SetControllerReference spare r podSet available
                        (len32 available))) = [] ->
        tutorial.scale SetControllerReference spare r podSet available
          (len32 available)
        = scale SetControllerReference spare r podSet available (len32 available)).
Proof.
  pose proof (scale_down_slice_nonempty spare podSet available) as Hnonempty.
  unfold tutorial.scale, scale.
  destruct (Z.gtb_spec (len32 available) (Replicas (Spec podSet))) as [Hgt | Hle].
  - destruct (slice_to _ _ _ _) as [dpods |] eqn:Hslice.
    + unfold bind at 2. rewrite for_range_delete_each, for_range_delete.
      cbn [fst snd].
      destruct dpods as [| dpod dpods].
      * destruct (Z.ltb_spec (len32 available) (Replicas (Spec podSet)));
          [lia |].
        exists []. cbn. split; [reflexivity |]. split; [now intros ev [] |].
        repeat split; try reflexivity.
        intros Hrep _. exfalso. apply Hnonempty; [exact Hrep | lia | reflexivity].
      * cbn [deleted_until_failure].
        destruct (client.Delete (Client r) dpod) as [err |] eqn:Hdel.
        -- exists []. cbn. rewrite Hdel. split; [reflexivity |].
           split; [now intros ev [] |]. repeat split; reflexivity.
        -- destruct (deleted_until_failure (client.Delete (Client r)) dpods)
             as [reached stopped].
           exists (List.map (fun dpod => {| call := CallDelete dpod;
                                            failure := client.Delete (Client r) dpod |})
                     reached).
           destruct (deletes_of_delete_calls (client.Delete (Client r)) reached)
             as [_ Hcres].
           split; [| split; [| split; [exact Hcres | split; [| split]]]].
           ++ destruct stopped; cbn; now rewrite Hdel, ?app_nil_r.
           ++ intros ev Hev. apply in_map_iff in Hev as (d & <- & _).
              now exists d.
           ++ clear. induction reached; cbn; auto.
           ++ clear. induction reached; cbn; auto.
           ++ cbn. discriminate.
    + exists []. cbn. split; [reflexivity |]. split; [now intros ev [] |].
      repeat split; reflexivity.
  - exists []. rewrite app_nil_r. split; [reflexivity |].
    split; [now intros ev [] |]. repeat split; reflexivity.
Qed.

(** X18. The controller does a part of what the tutorial's listing does: on
    the same store answers, the calls of the tutorial's pass are the calls of
    the controller's pass followed by nothing but further [Delete] calls
    (every further call is a [Delete]); and when the controller's pass
    deletes nothing (the replica count being an [int32]), the two passes are
    the same, outcome and calls. *)
Theorem Reconcile_is_prefix_of_tutorial r req :
  exists more,
    snd (tutorial.Reconcile SetControllerReference spare r req)
    = snd (Reconcile SetControllerReference spare r req) ++ more
    /\ (forall ev, In ev more -> exists dpod, call ev = CallDelete dpod)
    /\ creates more = [] /\ updates more = [] /\ lists more = []
    /\ ((forall podSet,
           client.Get (Client r) (ctrl.NamespacedName req) = Ok podSet ->
           - 2 ^ 31 <= Replicas (Spec podSet) <= max_int32) ->
        deletes (snd (Reconcile SetControllerReference spare r req)) = [] ->
        tutorial.Reconcile SetControllerReference spare r req
        = Reconcile SetControllerReference spare r req).
Proof.
  destruct (both_reach_scale r req)
    as [(Hsame & _ & _)
       | (before & podSet & podList & Hget & Hlist & _ & Hd & _ & Hc & Ht)].
  - exists []. rewrite Hsame, app_nil_r. split; [reflexivity |].
    split; [now intros ev [] |]. repeat split; reflexivity.
  - destruct (scale_prefix_of_tutorial r
                (withStatus podSet (computeStatus (corev1.Items podList)))
                (availablePods (corev1.Items podList)))
      as (more & Hmore & Honly & Hcre & Hupd & Hlis & Heq).
    exists more.
    split; [rewrite Ht, Hc; cbn [snd]; now rewrite Hmore, app_assoc |].
    split; [exact Honly |]. split; [exact Hcre |]. split; [exact Hupd |]. split; [exact Hlis |].
    intros Hrep Hnone. rewrite Hc in Hnone. cbn [snd] in Hnone.
    rewrite Ht, Hc, Heq; [reflexivity | exact (Hrep podSet Hget) |].
    unfold deletes in *. rewrite flat_map_app, Hd in Hnone. exact Hnone.
Qed.

End TutorialFacts.

(** ** The further properties at work *)

Lemma Reconcile_failed_call_is_last_witness :
  3%nat = length (snd (fake.run fake.demo_conflict true (fake.request "demo")))
  /\ (fst (fake.run fake.demo_conflict true (fake.request "demo"))
        = Returned ctrl.Result0 (Some fake.conflict)
      \/ (CallStatusUpdate (fake.demo 1 (computeStatus []))
            = CallGet (ctrl.NamespacedName (fake.request "demo"))
          /\ errors.IsNotFound fake.conflict = true
          /\ fst (fake.run fake.demo_conflict true (fake.request "demo"))
             = Returned ctrl.Result0 None)).
Proof.
  apply (@Reconcile_failed_call_is_last fake.Cluster fake.cluster_client bool
           fake.setControllerReference fake.tight
           (fake.reconciler fake.demo_conflict) (fake.request "demo") 2%nat
           {| call := CallStatusUpdate (fake.demo 1 (computeStatus []));
              failure := Some fake.conflict |} fake.conflict);
    reflexivity.
Defined.

Lemma Reconcile_error_has_a_source_witness :
  ctrl.Result0 = ctrl.Result0
  /\ ((exists before ev,
         snd (fake.run cases.demo_unlisted true (fake.request "demo"))
           = before ++ [ev]
         /\ failure ev = Some fake.conflict)
      \/ (exists podSet,
            fake.setControllerReference podSet (newPodForCR podSet) true
              = Err fake.conflict
            /\ creates (snd (fake.run cases.demo_unlisted true
                               (fake.request "demo"))) = [])).
Proof.
  apply (@Reconcile_error_has_a_source fake.Cluster fake.cluster_client bool
           fake.setControllerReference fake.tight
           (fake.reconciler cases.demo_unlisted) (fake.request "demo")).
  reflexivity.
Defined.

Lemma Reconcile_requeue_iff_mutated_witness :
  (ctrl.Requeue ctrl.ResultRequeue = true <->
   exists pod,
     In {| call := CallCreate pod; failure := None |}
        (snd (fake.run fake.demo_up true (fake.request "demo")))
     \/ In {| call := CallDelete pod; failure := None |}
          (snd (fake.run fake.demo_up true (fake.request "demo"))))
  /\ (ctrl.Requeue ctrl.ResultRequeue = true -> @None error = None)
  /\ ctrl.RequeueAfter ctrl.ResultRequeue = 0.
Proof.
  apply (@Reconcile_requeue_iff_mutated fake.Cluster fake.cluster_client bool
           fake.setControllerReference fake.tight
           (fake.reconciler fake.demo_up) (fake.request "demo")).
  reflexivity.
Defined.

Lemma Reconcile_call_order_witness :
  (2 <= 3)%nat
  /\ 4%nat = length (snd (fake.run fake.demo_down true (fake.request "demo"))).
Proof.
  destruct (@Reconcile_call_order fake.Cluster fake.cluster_client bool
              fake.setControllerReference fake.tight
              (fake.reconciler fake.demo_down) (fake.request "demo"))
    as [_ Horder].
  apply (Horder 3%nat
           {| call := CallDelete (fake.pod "demo" "demo-pod-a" corev1.PodRunning None);
              failure := None |}).
  reflexivity.
Defined.

Lemma Reconcile_updates_status_iff_stale_witness :
  updates (snd (fake.run fake.demo_settled true (fake.request "demo"))) = []
  /\ exists obj,
       updates (snd (fake.run fake.demo_steady true (fake.request "demo"))) = [obj]
       /\ ObjectMeta obj = ObjectMeta (fake.demo 2 fake.noStatus)
       /\ Spec obj = Spec (fake.demo 2 fake.noStatus)
       /\ Status obj = computeStatus fake.mixed.
Proof.
  split.
  - apply (@Reconcile_updates_status_iff_stale fake.Cluster fake.cluster_client
             bool fake.setControllerReference fake.tight
             (fake.reconciler fake.demo_settled) (fake.request "demo")
             (fake.demo 2 (fake.statusOf ["demo-pod-a"; "demo-pod-d"]))
             {| corev1.Items := fake.mixed |}); reflexivity.
  - apply (@Reconcile_updates_status_iff_stale fake.Cluster fake.cluster_client
             bool fake.setControllerReference fake.tight
             (fake.reconciler fake.demo_steady) (fake.request "demo")
             (fake.demo 2 fake.noStatus)
             {| corev1.Items := fake.mixed |}); try reflexivity.
    vm_compute. discriminate.
Defined.

Lemma Reconcile_nil_podNames_is_rewritten_witness :
  updates (snd (fake.run cases.demo_fresh true (fake.request "demo")))
  = [fake.demo 0 {| PodNames := Some []; AvailableReplicas := 0 |}].
Proof.
  apply (@Reconcile_nil_podNames_is_rewritten fake.Cluster fake.cluster_client
           bool fake.setControllerReference fake.tight
           (fake.reconciler cases.demo_fresh) (fake.request "demo")
           (fake.demo 0 fake.noStatus) {| corev1.Items := [] |});
    reflexivity.
Defined.

Lemma Reconcile_deletes_first_available_witness :
  exists podSet podList rest,
    client.Get fake.demo_down (ctrl.NamespacedName (fake.request "demo"))
      = Ok podSet
    /\ client.List fake.demo_down (listOptsFor podSet) = Ok podList
    /\ List.filter isAvailable (corev1.Items podList)
       = fake.pod "demo" "demo-pod-a" corev1.PodRunning None :: rest.
Proof.
  apply (@Reconcile_deletes_first_available fake.Cluster fake.cluster_client
           bool fake.setControllerReference fake.tight
           (fake.reconciler fake.demo_down) (fake.request "demo")).
  vm_compute. left. reflexivity.
Defined.

Lemma Reconcile_scale_down_one_delete_witness :
  exists dpod rest,
    List.filter isAvailable
      (List.filter (fake.selects (listOptsFor (fake.demo 2 fake.noStatus)))
         fake.crowd) = dpod :: rest
    /\ deletes (snd (fake.run fake.demo_down true (fake.request "demo"))) = [dpod]
    /\ creates (snd (fake.run fake.demo_down true (fake.request "demo"))) = []
    /\ (client.Delete fake.demo_down dpod = None ->
        fst (fake.run fake.demo_down true (fake.request "demo"))
          = Returned ctrl.ResultRequeue None)
    /\ (forall err, client.Delete fake.demo_down dpod = Some err ->
        fst (fake.run fake.demo_down true (fake.request "demo"))
          = Returned ctrl.Result0 (Some err)).
Proof.
  apply (@Reconcile_scale_down_one_delete fake.Cluster fake.cluster_client
           bool fake.setControllerReference fake.tight
           (fake.reconciler fake.demo_down) (fake.request "demo")
           (fake.demo 2 fake.noStatus)
           {| corev1.Items :=
                List.filter (fake.selects (listOptsFor (fake.demo 2 fake.noStatus)))
                  fake.crowd |}); try reflexivity.
  - vm_compute. split; [discriminate | reflexivity].
  - vm_compute. discriminate.
Defined.

Lemma Reconcile_in_sync_is_done_witness :
  fst (fake.run fake.demo_steady true (fake.request "demo"))
    = Returned ctrl.Result0 None
  /\ creates (snd (fake.run fake.demo_steady true (fake.request "demo"))) = []
  /\ deletes (snd (fake.run fake.demo_steady true (fake.request "demo"))) = [].
Proof.
  apply (@Reconcile_in_sync_is_done fake.Cluster fake.cluster_client
           bool fake.setControllerReference fake.tight
           (fake.reconciler fake.demo_steady) (fake.request "demo")
           (fake.demo 2 fake.noStatus) {| corev1.Items := fake.mixed |});
    try reflexivity.
  vm_compute. discriminate.
Defined.

Lemma Reconcile_does_not_panic_witness :
  exists res err,
    fst (fake.run fake.demo_down true (fake.request "demo")) = Returned res err.
Proof.
  apply (@Reconcile_does_not_panic fake.Cluster fake.cluster_client
           bool fake.setControllerReference fake.tight
           (fake.reconciler fake.demo_down) (fake.request "demo")).
  intros podSet podList Hget Hlist.
  injection Hget as <-. injection Hlist as <-.
  vm_compute. split; discriminate.
Defined.

Lemma Reconcile_panics_on_negative_replicas_witness :
  fst (fake.run cases.demo_negative true (fake.request "demo")) = Panicked
  /\ creates (snd (fake.run cases.demo_negative true (fake.request "demo"))) = []
  /\ deletes (snd (fake.run cases.demo_negative true (fake.request "demo"))) = [].
Proof.
  apply (@Reconcile_panics_on_negative_replicas fake.Cluster fake.cluster_client
           bool fake.setControllerReference fake.tight
           (fake.reconciler cases.demo_negative) (fake.request "demo")
           (fake.demo (-1) fake.noStatus) {| corev1.Items := [] |});
    try reflexivity.
  vm_compute. split; [discriminate | reflexivity].
Defined.

Lemma Reconcile_owner_failure_creates_nothing_witness :
  fst (fake.run fake.demo_up false (fake.request "demo"))
    = Returned ctrl.Result0
        (Some {| errors.Reason := errors.StatusReasonInternalError;
                 errors.Message := "no kind is registered for the type PodSet" |})
  /\ creates (snd (fake.run fake.demo_up false (fake.request "demo"))) = []
  /\ deletes (snd (fake.run fake.demo_up false (fake.request "demo"))) = [].
Proof.
  apply (@Reconcile_owner_failure_creates_nothing fake.Cluster fake.cluster_client
           bool fake.setControllerReference fake.tight
           {| Client := fake.demo_up; Scheme := false |} (fake.request "demo")
           (fake.demo 3 fake.noStatus) {| corev1.Items := fake.mixed |});
    try reflexivity.
  vm_compute. discriminate.
Defined.

Lemma listOptsFor_selects_by_labels_witness :
  labels.Matches (client.LabelSelector (listOptsFor (fake.demo 2 fake.noStatus)))
    (<["tier" := "test"]> (<["app" := "demo"]> (<["version" := "v0.1"]> ∅)))
  = true.
Proof.
  apply (listOptsFor_selects_by_labels (fake.demo 2 fake.noStatus)).
  split; reflexivity.
Defined.

Lemma computeStatus_permutation_witness :
  AvailableReplicas (computeStatus fake.mixed)
    = AvailableReplicas (computeStatus (rev fake.mixed))
  /\ exists names names',
       PodNames (computeStatus fake.mixed) = Some names
       /\ PodNames (computeStatus (rev fake.mixed)) = Some names'
       /\ Permutation names names'.
Proof.
  apply computeStatus_permutation. apply Permutation_rev.
Defined.

Lemma computeStatus_reads_three_fields_witness :
  computeStatus fake.mixed = computeStatus (List.map cases.stripped fake.mixed).
Proof.
  apply computeStatus_reads_three_fields.
  repeat constructor.
Defined.

Lemma computeStatus_bounds_witness :
  0 <= AvailableReplicas (computeStatus fake.crowd)
    <= Z.of_nat (length fake.crowd).
Proof.
  destruct (computeStatus_bounds fake.crowd) as (names & _ & _ & Hfit).
  apply Hfit. vm_compute. discriminate.
Defined.

Lemma tutorial_scale_down_deletes_excess_witness :
  deletes (snd (cases.run_tutorial fake.demo_down true (fake.request "demo")))
    = firstn 3 fake.five
  /\ fst (cases.run_tutorial fake.demo_down true (fake.request "demo"))
     = Returned ctrl.ResultRequeue None.
Proof.
  destruct (@tutorial_scale_down_deletes_excess fake.Cluster fake.cluster_client
              bool fake.setControllerReference fake.tight
              (fake.reconciler fake.demo_down) (fake.request "demo")
              (fake.demo 2 fake.noStatus)
              {| corev1.Items :=
                   List.filter (fake.selects (listOptsFor (fake.demo 2 fake.noStatus)))
                     fake.crowd |}
              ltac:(reflexivity) ltac:(reflexivity) ltac:(reflexivity)
              ltac:(vm_compute; split; [discriminate | reflexivity])
              ltac:(vm_compute; discriminate))
    as (excess & -> & _ & _ & _ & _ & Hall).
  apply Hall. intros dpod _. reflexivity.
Defined.

Lemma Reconcile_is_prefix_of_tutorial_witness :
  cases.run_tutorial fake.demo_up true (fake.request "demo")
  = fake.run fake.demo_up true (fake.request "demo").
Proof.
  destruct (@Reconcile_is_prefix_of_tutorial fake.Cluster fake.cluster_client
              bool fake.setControllerReference fake.tight
              (fake.reconciler fake.demo_up) (fake.request "demo"))
    as (more & _ & _ & _ & _ & _ & Hsame).
  apply Hsame.
  - intros podSet Hget. injection Hget as <-. vm_compute.
    split; discriminate.
  - reflexivity.
Defined.

(** ** The stored status and the pods of the PodSet *)

Lemma selects_listOptsFor (podSet : PodSet) (pod : corev1.Pod) :
  metav1.Namespace (ObjectMeta podSet) <> "" ->
  fake.selects (listOptsFor podSet) pod = ownedBy podSet pod.
Proof.
  intros Hns. unfold fake.selects, ownedBy. cbn [client.Namespace listOptsFor].
  destruct (String.eqb_spec (metav1.Namespace (ObjectMeta podSet)) "") as [He | _];
    [contradiction |].
  cbn [orb]. rewrite <- andb_assoc. f_equal.
  apply eq_true_iff_eq. rewrite andb_true_iff, !bool_decide_eq_true. cbn. split.
  - intros Hm. split.
    + apply (Matches_SelectorFromSet_inv _ _ _ _ Hm), lookup_insert_eq.
    + apply (Matches_SelectorFromSet_inv _ _ _ _ Hm).
      rewrite lookup_insert_ne by discriminate. apply lookup_insert_eq.
  - intros [Happ Hver]. apply Matches_SelectorFromSet. intros k v.
    destruct (decide (k = "app")) as [-> | Hk].
    + rewrite lookup_insert_eq. now intros [= <-].
    + rewrite lookup_insert_ne by congruence.
      destruct (decide (k = "version")) as [-> | Hk'].
      * rewrite lookup_insert_eq. now intros [= <-].
      * rewrite lookup_insert_ne by congruence. now rewrite lookup_empty.
Qed.

Section OwnedPods.

Context {C : Type} `{client.Client C} {S : Type}.
Variable SetControllerReference :
  PodSet -> corev1.Pod -> S -> result corev1.Pod.
Variable spare : nat -> nat.

(** C4. After a pass that fetched the PodSet and returned a nil error, the
    status the store holds for the PodSet is the one computed from the pods
    of the PodSet in the snapshot the listing was answered from, and no
    others: its [availableReplicas] is the number of pods of the snapshot
    that are in the PodSet's namespace, carry its ownership label pair, have
    no deletion marker and are Pending or Running (that number being one an
    [int32] can hold). *)
Theorem Reconcile_status_counts_owned_pods
    (r : PodSetReconciler C S) req podSet snapshot res :
  client.Get (Client r) (ctrl.NamespacedName req) = Ok podSet ->
  metav1.Namespace (ObjectMeta podSet) <> "" ->
  lists_from (Client r) snapshot ->
  fst (Reconcile SetControllerReference spare r req) = Returned res None ->
  Status (persisted podSet (snd (Reconcile SetControllerReference spare r req)))
    = computeStatus (List.filter (ownedBy podSet) snapshot)
  /\ (Z.of_nat (length (List.filter isAvailable
                          (List.filter (ownedBy podSet) snapshot)))
        <= max_int32 ->
      AvailableReplicas
        (Status (persisted podSet
                   (snd (Reconcile SetControllerReference spare r req))))
      = Z.of_nat (length (List.filter isAvailable
                            (List.filter (ownedBy podSet) snapshot)))).
Proof.
  intros Hget Hns Hlists Hok.
  assert (Hlist :
    client.List (Client r) (listOptsFor podSet)
    = Ok {| corev1.Items := List.filter (ownedBy podSet) snapshot |}).
  { rewrite Hlists. do 2 f_equal. apply filter_ext.
    intros pod. now apply selects_listOptsFor. }
  exact (Reconcile_status_is_computed SetControllerReference spare r req podSet
           {| corev1.Items := List.filter (ownedBy podSet) snapshot |} res
           Hget Hlist Hok).
Qed.

End OwnedPods.

Lemma Reconcile_status_counts_owned_pods_witness :
  List.map podName (List.filter (ownedBy (fake.demo 2 fake.noStatus)) fake.crowd)
    = ["demo-pod-a"; "demo-pod-b"; "demo-pod-c"; "demo-pod-d"; "demo-pod-e";
       "demo-pod-f"]
  /\ Status (persisted (fake.demo 2 fake.noStatus)
               (snd (fake.run fake.demo_down true (fake.request "demo"))))
     = computeStatus (List.filter (ownedBy (fake.demo 2 fake.noStatus)) fake.crowd)
  /\ AvailableReplicas
       (Status (persisted (fake.demo 2 fake.noStatus)
                  (snd (fake.run fake.demo_down true (fake.request "demo")))))
     = 5.
Proof.
  destruct (@Reconcile_status_counts_owned_pods fake.Cluster fake.cluster_client
              bool fake.setControllerReference fake.tight
              (fake.reconciler fake.demo_down) (fake.request "demo")
              (fake.demo 2 fake.noStatus) fake.crowd ctrl.ResultRequeue
              ltac:(reflexivity) ltac:(discriminate)
              ltac:(intros opts; reflexivity) ltac:(reflexivity))
    as [Hst Hcount].
  split; [reflexivity |]. split; [exact Hst |].
  apply Hcount. vm_compute. discriminate.
Defined.
